(** * AI Books API: storage-access layer, payload validation and handlers

    A shallow embedding of [database.py], [models.py] and [main.py].

    The program keeps its books in one SQLite file, [bokelai.db], and every
    storage function opens its own connection, runs one statement and closes
    the connection again.  The embedding therefore threads the contents of
    that file explicitly through every call ([File]), together with an
    environment ([Env]) that says whether the connection or the statement
    fails on that call and what the store's clock reads.

    Layers, bottom up:
    - [Sqlite]   : the five SQL statements of [database.py] on the [books]
                   table, as the SQL engine and the [sqlite3] driver run them;
    - [Database] : the functions of [database.py];
    - [Models]   : the request model [BookCreate] of [models.py];
    - [Main]     : the route functions of [main.py]. *)

From Stdlib Require Import ZArith List String Bool Lia Sorted.
Import ListNotations.
Local Open Scope Z_scope.

(** ** Rows of the [books] table *)

Module Row.

(** One row of [books], which is also the [dict(row)] the storage functions
    hand out.  [title], [author] and [price] are [NOT NULL] columns. *)
Record t : Type := mk {
  id : Z;
  title : string;
  author : string;
  publisher : option string;
  price : Z;
  publish_date : option string;
  isbn : option string;
  cover_url : option string;
  created_at : string
}.

End Row.

(** ** The SQL engine *)

Module Sqlite.

(** SQLite stores an [INTEGER] in at most eight bytes; the driver refuses to
    bind a Python [int] outside this range ([OverflowError]). *)
Definition INT64_MIN : Z := - 2 ^ 63.
Definition INT64_MAX : Z := 2 ^ 63 - 1.

Definition fits_int64 (z : Z) : bool :=
  (INT64_MIN <=? z) && (z <=? INT64_MAX).

(** The exceptions a statement can raise. *)
Inductive Exn : Type :=
| OperationalError   (* cannot open the file, no such table, I/O error, full *)
| IntegrityError     (* NOT NULL constraint failed *)
| OverflowError.     (* Python int too large to convert to SQLite INTEGER *)

Inductive Outcome (A : Type) : Type :=
| Return (a : A)
| Raise (x : Exn).
Arguments Return {A} a.
Arguments Raise {A} x.

Definition raises {A : Type} (o : Outcome A) : Prop :=
  exists x, o = Raise x.

(** What the environment does to one storage call. *)
Inductive Fault : Type :=
| NoFault
| ConnectFault    (* [sqlite3.connect] raises *)
| ExecuteFault.   (* the statement (or its commit) raises *)

Record Env : Type := mkEnv {
  fault : Fault;
  now : string      (* CURRENT_TIMESTAMP *)
}.

Definition healthy (e : Env) : bool :=
  match fault e with
  | NoFault => true
  | _ => false
  end.

(** The table: its rows in rowid order (the order of a full scan) and the
    [sqlite_sequence] counter that [AUTOINCREMENT] maintains, the largest
    rowid the table has ever held. *)
Record Table : Type := mkTable {
  rows : list Row.t;
  seq : Z
}.

Definition empty_table : Table := {| rows := []; seq := 0 |}.

(** The file [bokelai.db]: missing, present without a [books] table, or
    holding the table. *)
Inductive File : Type :=
| Absent
| NoTable
| Books (t : Table).

(** The statements of [database.py], with their bound parameters in the
    order of the placeholders. *)
Inductive Stmt : Type :=
| SelectPage (limit offset : Z)
| SelectById (book_id : Z)
| InsertBook (title author publisher : option string) (price : Z)
             (publish_date isbn cover_url : option string)
| UpdateBook (title author publisher : option string) (price : Z)
             (publish_date isbn cover_url : option string) (book_id : Z)
| DeleteBook (book_id : Z).

Record Cursor : Type := mkCursor {
  fetched : list Row.t;
  lastrowid : Z;
  rowcount : Z
}.

Definition fetchall (c : Cursor) : list Row.t := fetched c.

Definition fetchone (c : Cursor) : option Row.t := hd_error (fetched c).

(** Binding: every integer parameter must fit in 64 bits. *)
Definition bindable (s : Stmt) : bool :=
  match s with
  | SelectPage limit offset => fits_int64 limit && fits_int64 offset
  | SelectById book_id => fits_int64 book_id
  | InsertBook _ _ _ price _ _ _ => fits_int64 price
  | UpdateBook _ _ _ price _ _ _ book_id => fits_int64 price && fits_int64 book_id
  | DeleteBook book_id => fits_int64 book_id
  end.

Definition has_id (i : Z) (r : Row.t) : bool := Row.id r =? i.

Definition max_rowid (l : list Row.t) : Z :=
  fold_right (fun r m => Z.max (Row.id r) m) 0 l.

(** Insertion into the rowid-ordered table. *)
Fixpoint btree_insert (r : Row.t) (l : list Row.t) : list Row.t :=
  match l with
  | [] => [r]
  | x :: xs => if Row.id r <? Row.id x then r :: x :: xs
               else x :: btree_insert r xs
  end.

(** [UPDATE ... SET] of the seven columns; [id] and [created_at] stay. *)
Definition set_columns (title author : string) (publisher : option string)
    (price : Z) (publish_date isbn cover_url : option string)
    (r : Row.t) : Row.t :=
  Row.mk (Row.id r) title author publisher price publish_date isbn cover_url
         (Row.created_at r).

(** [LIMIT ? OFFSET ?]: a negative [OFFSET] counts as 0, a negative [LIMIT]
    is no upper bound, and a non-negative [LIMIT] is an upper bound. *)
Definition limit_offset (limit offset : Z) (l : list Row.t) : list Row.t :=
  let rest := skipn (Z.to_nat offset) l in
  if limit <? 0 then rest else firstn (Z.to_nat limit) rest.

(** One statement on the table. *)
Definition step (clock : string) (t : Table) (s : Stmt)
    : Outcome (Table * Cursor) :=
  match s with
  | SelectPage limit offset =>
      Return (t, mkCursor (limit_offset limit offset (rows t)) 0 (-1))
  | SelectById book_id =>
      Return (t, mkCursor (filter (has_id book_id) (rows t)) 0 (-1))
  | InsertBook title author publisher price publish_date isbn cover_url =>
      match title, author with
      | Some ti, Some au =>
          let largest := Z.max (seq t) (max_rowid (rows t)) in
          if largest <? INT64_MAX then
            let r := Row.mk (largest + 1) ti au publisher price publish_date
                            isbn cover_url clock in
            Return (mkTable (btree_insert r (rows t)) (largest + 1),
                    mkCursor [] (largest + 1) 1)
          else Raise OperationalError
      | _, _ => Raise IntegrityError
      end
  | UpdateBook title author publisher price publish_date isbn cover_url
               book_id =>
      match filter (has_id book_id) (rows t) with
      | [] => Return (t, mkCursor [] 0 0)
      | hit =>
          match title, author with
          | Some ti, Some au =>
              let upd r :=
                if has_id book_id r
                then set_columns ti au publisher price publish_date isbn
                                 cover_url r
                else r in
              Return (mkTable (map upd (rows t)) (seq t),
                      mkCursor [] 0 (Z.of_nat (List.length hit)))
          | _, _ => Raise IntegrityError
          end
      end
  | DeleteBook book_id =>
      let hit := filter (has_id book_id) (rows t) in
      Return (mkTable (filter (fun r => negb (has_id book_id r)) (rows t))
                      (seq t),
              mkCursor [] 0 (Z.of_nat (List.length hit)))
  end.

(** [sqlite3.connect]: opens the file and creates it (empty) when missing. *)
Definition connect (e : Env) (f : File) : Outcome File :=
  match fault e with
  | ConnectFault => Raise OperationalError
  | _ => Return match f with Absent => NoTable | _ => f end
  end.

(** [CREATE TABLE books (...)]. *)
Definition create_table (e : Env) (f : File) : Outcome File :=
  match fault e with
  | NoFault =>
      match f with
      | Books _ => Raise OperationalError
      | _ => Return (Books empty_table)
      end
  | _ => Raise OperationalError
  end.

(** [cursor.execute(sql, params)] followed, for a write, by [conn.commit()]:
    the statement is prepared (the table must exist), its parameters are
    bound, and it runs.  When anything raises, the file is as before. *)
Definition execute (e : Env) (f : File) (s : Stmt)
    : Outcome (File * Cursor) :=
  match f with
  | Books t =>
      if bindable s then
        match fault e with
        | NoFault =>
            match step (now e) t s with
            | Return (t', c) => Return (Books t', c)
            | Raise x => Raise x
            end
        | _ => Raise OperationalError
        end
      else Raise OverflowError
  | _ => Raise OperationalError
  end.

End Sqlite.

(** ** database.py *)

Module Database.
Import Sqlite.

Inductive Connection : Type := Conn.

Definition db_exists (f : File) : bool :=
  match f with Absent => false | _ => true end.

(** [get_db_connection]: the connection, or [None] when anything raised.
    A missing file is created and the table initialised. *)
Definition get_db_connection (e : Env) (f : File) : File * option Connection :=
  match connect e f with
  | Raise _ => (f, None)
  | Return f1 =>
      if negb (db_exists f) then
        match create_table e f1 with
        | Raise _ => (f1, None)
        | Return f2 => (f2, Some Conn)
        end
      else (f1, Some Conn)
  end.

(** The body of [get_all_books] inside [try], on an open connection. *)
Definition get_all_books_try (e : Env) (skip limit : Z) (f : File)
    : Outcome (File * list Row.t) :=
  match execute e f (SelectPage limit skip) with
  | Return (f', cursor) => Return (f', fetchall cursor)
  | Raise x => Raise x
  end.

Definition get_all_books (e : Env) (skip limit : Z) (f : File)
    : File * list Row.t :=
  match get_db_connection e f with
  | (f0, None) => (f0, [])
  | (f0, Some _) =>
      match get_all_books_try e skip limit f0 with
      | Return res => res
      | Raise _ => (f0, [])
      end
  end.

Definition get_book_by_id_try (e : Env) (book_id : Z) (f : File)
    : Outcome (File * option Row.t) :=
  match execute e f (SelectById book_id) with
  | Return (f', cursor) =>
      match fetchone cursor with
      | Some row => Return (f', Some row)
      | None => Return (f', None)
      end
  | Raise x => Raise x
  end.

Definition get_book_by_id (e : Env) (book_id : Z) (f : File)
    : File * option Row.t :=
  match get_db_connection e f with
  | (f0, None) => (f0, None)
  | (f0, Some _) =>
      match get_book_by_id_try e book_id f0 with
      | Return res => res
      | Raise _ => (f0, None)
      end
  end.

Definition create_book_try (e : Env) (title author publisher : option string)
    (price : Z) (publish_date isbn cover_url : option string) (f : File)
    : Outcome (File * Z) :=
  match execute e f (InsertBook title author publisher price publish_date
                                isbn cover_url) with
  | Return (f', cursor) => Return (f', lastrowid cursor)
  | Raise x => Raise x
  end.

Definition create_book (e : Env) (title author publisher : option string)
    (price : Z) (publish_date isbn cover_url : option string) (f : File)
    : File * Z :=
  match get_db_connection e f with
  | (f0, None) => (f0, -1)
  | (f0, Some _) =>
      match create_book_try e title author publisher price publish_date isbn
                            cover_url f0 with
      | Return res => res
      | Raise _ => (f0, -1)
      end
  end.

Definition update_book_try (e : Env) (book_id : Z)
    (title author publisher : option string) (price : Z)
    (publish_date isbn cover_url : option string) (f : File)
    : Outcome (File * bool) :=
  match execute e f (UpdateBook title author publisher price publish_date
                                isbn cover_url book_id) with
  | Return (f', cursor) =>
      if rowcount cursor >? 0 then Return (f', true) else Return (f', false)
  | Raise x => Raise x
  end.

Definition update_book (e : Env) (book_id : Z)
    (title author publisher : option string) (price : Z)
    (publish_date isbn cover_url : option string) (f : File)
    : File * bool :=
  match get_db_connection e f with
  | (f0, None) => (f0, false)
  | (f0, Some _) =>
      match update_book_try e book_id title author publisher price
                            publish_date isbn cover_url f0 with
      | Return res => res
      | Raise _ => (f0, false)
      end
  end.

Definition delete_book_try (e : Env) (book_id : Z) (f : File)
    : Outcome (File * bool) :=
  match execute e f (DeleteBook book_id) with
  | Return (f', cursor) =>
      if rowcount cursor >? 0 then Return (f', true) else Return (f', false)
  | Raise x => Raise x
  end.

Definition delete_book (e : Env) (book_id : Z) (f : File) : File * bool :=
  match get_db_connection e f with
  | (f0, None) => (f0, false)
  | (f0, Some _) =>
      match delete_book_try e book_id f0 with
      | Return res => res
      | Raise _ => (f0, false)
      end
  end.

End Database.

(** ** Sequences of storage calls *)

Module Client.
Import Sqlite.

(** A call to one of the five storage functions, with its arguments. *)
Inductive Call : Type :=
| GetAllBooks (skip limit : Z)
| GetBookById (book_id : Z)
| CreateBook (title author publisher : option string) (price : Z)
             (publish_date isbn cover_url : option string)
| UpdateBook (book_id : Z) (title author publisher : option string)
             (price : Z) (publish_date isbn cover_url : option string)
| DeleteBook (book_id : Z).

(** What the call returned. *)
Inductive Answer : Type :=
| Listed (books : list Row.t)
| Fetched (book : option Row.t)
| Created (new_id : Z)
| Updated (success : bool)
| Deleted (success : bool).

Definition perform (e : Env) (c : Call) (f : File) : File * Answer :=
  match c with
  | GetAllBooks skip limit =>
      let (f', books) := Database.get_all_books e skip limit f in
      (f', Listed books)
  | GetBookById book_id =>
      let (f', book) := Database.get_book_by_id e book_id f in
      (f', Fetched book)
  | CreateBook title author publisher price publish_date isbn cover_url =>
      let (f', new_id) :=
        Database.create_book e title author publisher price publish_date isbn
                             cover_url f in
      (f', Created new_id)
  | UpdateBook book_id title author publisher price publish_date isbn
               cover_url =>
      let (f', ok) :=
        Database.update_book e book_id title author publisher price
                             publish_date isbn cover_url f in
      (f', Updated ok)
  | DeleteBook book_id =>
      let (f', ok) := Database.delete_book e book_id f in
      (f', Deleted ok)
  end.

(** A history: calls in order, each under its own environment. *)
Fixpoint run (h : list (Env * Call)) (f : File) : File * list Answer :=
  match h with
  | [] => (f, [])
  | (e, c) :: h' =>
      let (f1, a) := perform e c f in
      let (f2, answers) := run h' f1 in
      (f2, a :: answers)
  end.

(** The ids handed out by the successful creates of a history, in order. *)
Fixpoint created_ids (answers : list Answer) : list Z :=
  match answers with
  | [] => []
  | Created new_id :: rest =>
      if new_id =? -1 then created_ids rest else new_id :: created_ids rest
  | _ :: rest => created_ids rest
  end.

(** The rows the file holds. *)
Definition stored (f : File) : list Row.t :=
  match f with
  | Books t => rows t
  | _ => []
  end.

(** The largest rowid the file remembers having used. *)
Definition high_water (f : File) : Z :=
  match f with
  | Books t => seq t
  | _ => 0
  end.

Definition ids_ascending (l : list Row.t) : Prop :=
  StronglySorted (fun a b => Row.id a < Row.id b) l.

(** The engine's invariant on a table it alone has written: rows in
    strictly ascending rowid order, rowids positive and covered by
    [sqlite_sequence], which is itself a 64-bit rowid. *)
Definition wf_table (t : Table) : Prop :=
  ids_ascending (rows t) /\
  Forall (fun r => 1 <= Row.id r <= seq t) (rows t) /\
  0 <= seq t <= INT64_MAX.

Definition wf_file (f : File) : Prop :=
  match f with
  | Books t => wf_table t
  | _ => True
  end.

End Client.

(** ** models.py *)

Module Models.

(** [BookCreate], a validated request model. *)
Record BookCreate : Type := mkBookCreate {
  title : option string;
  author : option string;
  publisher : option string;
  price : Z;
  publish_date : option string;
  isbn : option string;
  cover_url : option string
}.

(** The JSON object of a request body, its values of the JSON type the
    model asks for: a key that is missing or [null] is [None]. *)
Record Payload : Type := mkPayload {
  p_title : option string;
  p_author : option string;
  p_publisher : option string;
  p_price : option Z;
  p_publish_date : option string;
  p_isbn : option string;
  p_cover_url : option string
}.

(** Validation of a payload against [BookCreate]: the text fields default to
    [None]; [price] is required ([Field(...)]) and must be [gt=0]. *)
Definition model_validate (p : Payload) : option BookCreate :=
  match p_price p with
  | None => None
  | Some n =>
      if n >? 0
      then Some (mkBookCreate (p_title p) (p_author p) (p_publisher p) n
                              (p_publish_date p) (p_isbn p) (p_cover_url p))
      else None
  end.

End Models.

(** ** main.py *)

Module Main.
Import Sqlite.

Inductive Content : Type :=
| BookJson (book : Row.t)
| BooksJson (books : list Row.t)
| Empty.

Inductive Response : Type :=
| Reply (status_code : Z) (content : Content)
| HTTPException (status_code : Z) (detail : string)
| RequestValidationError     (* the body does not validate: 422 *)
| ResponseValidationError.   (* [response_model] rejects [None]: 500 *)

(** A handled request: the file afterwards, the storage calls made, in
    order, and the response. *)
Record Handled : Type := mkHandled {
  file : File;
  calls : list Client.Call;
  response : Response
}.

Definition get_books (e : Env) (skip limit : Z) (f : File) : Handled :=
  let (f1, books) := Database.get_all_books e skip limit f in
  mkHandled f1 [Client.GetAllBooks skip limit] (Reply 200 (BooksJson books)).

Definition get_book (e : Env) (book_id : Z) (f : File) : Handled :=
  let (f1, book) := Database.get_book_by_id e book_id f in
  match book with
  | None =>
      mkHandled f1 [Client.GetBookById book_id]
                (HTTPException 404 "Book not found")
  | Some b =>
      mkHandled f1 [Client.GetBookById book_id] (Reply 200 (BookJson b))
  end.

Definition create_book (e1 e2 : Env) (book : Models.BookCreate) (f : File)
    : Handled :=
  let call :=
    Client.CreateBook (Models.title book) (Models.author book)
      (Models.publisher book) (Models.price book) (Models.publish_date book)
      (Models.isbn book) (Models.cover_url book) in
  let (f1, new_id) :=
    Database.create_book e1 (Models.title book) (Models.author book)
      (Models.publisher book) (Models.price book) (Models.publish_date book)
      (Models.isbn book) (Models.cover_url book) f in
  if new_id =? -1 then
    mkHandled f1 [call]
      (HTTPException 400 "Create book failed. Check required fields.")
  else
    let (f2, new_book) := Database.get_book_by_id e2 new_id f1 in
    mkHandled f2 [call; Client.GetBookById new_id]
      match new_book with
      | Some b => Reply 201 (BookJson b)
      | None => ResponseValidationError
      end.

Definition update_book (e1 e2 : Env) (book_id : Z) (book : Models.BookCreate)
    (f : File) : Handled :=
  let call :=
    Client.UpdateBook book_id (Models.title book) (Models.author book)
      (Models.publisher book) (Models.price book) (Models.publish_date book)
      (Models.isbn book) (Models.cover_url book) in
  let (f1, success) :=
    Database.update_book e1 book_id (Models.title book) (Models.author book)
      (Models.publisher book) (Models.price book) (Models.publish_date book)
      (Models.isbn book) (Models.cover_url book) f in
  if negb success then
    mkHandled f1 [call] (HTTPException 404 "Book not found")
  else
    let (f2, updated_book) := Database.get_book_by_id e2 book_id f1 in
    mkHandled f2 [call; Client.GetBookById book_id]
      match updated_book with
      | Some b => Reply 200 (BookJson b)
      | None => ResponseValidationError
      end.

Definition delete_book (e : Env) (book_id : Z) (f : File) : Handled :=
  let (f1, success) := Database.delete_book e book_id f in
  if negb success then
    mkHandled f1 [Client.DeleteBook book_id]
              (HTTPException 404 "Book not found")
  else
    mkHandled f1 [Client.DeleteBook book_id] (Reply 204 Empty).

(** The routes as the framework dispatches them: query parameters take their
    defaults, a body is validated before the route function runs. *)
Definition query_default (d : Z) (q : option Z) : Z :=
  match q with
  | Some z => z
  | None => d
  end.

Definition GET_books (e : Env) (skip limit : option Z) (f : File) : Handled :=
  get_books e (query_default 0 skip) (query_default 0 limit) f.

Definition POST_books (e1 e2 : Env) (body : Models.Payload) (f : File)
    : Handled :=
  match Models.model_validate body with
  | None => mkHandled f [] RequestValidationError
  | Some book => create_book e1 e2 book f
  end.

Definition PUT_books (e1 e2 : Env) (book_id : Z) (body : Models.Payload)
    (f : File) : Handled :=
  match Models.model_validate body with
  | None => mkHandled f [] RequestValidationError
  | Some book => update_book e1 e2 book_id book f
  end.

End Main.

(** ** Requests *)

Module Server.
Import Sqlite.

(** The requests the routes of [main.py] answer. *)
Inductive Request : Type :=
| GetBooks (skip limit : option Z)                  (* GET /books *)
| GetBook (book_id : Z)                             (* GET /books/{book_id} *)
| PostBooks (body : Models.Payload)                 (* POST /books *)
| PutBook (book_id : Z) (body : Models.Payload)     (* PUT /books/{book_id} *)
| DeleteBook (book_id : Z).                         (* DELETE /books/{book_id} *)

(** One request.  A route makes at most two storage calls: the first runs
    under [e1], the re-fetch of [POST] and [PUT] under [e2]. *)
Definition serve (e1 e2 : Env) (q : Request) (f : File) : Main.Handled :=
  match q with
  | GetBooks skip limit => Main.GET_books e1 skip limit f
  | GetBook book_id => Main.get_book e1 book_id f
  | PostBooks body => Main.POST_books e1 e2 body f
  | PutBook book_id body => Main.PUT_books e1 e2 book_id body f
  | DeleteBook book_id => Main.delete_book e1 book_id f
  end.

(** Requests one after the other, each on the file the previous one left. *)
Fixpoint serve_all (h : list (Env * Env * Request)) (f : File)
    : File * list Main.Response :=
  match h with
  | [] => (f, [])
  | (e1, e2, q) :: h' =>
      let r := serve e1 e2 q f in
      let (f', rs) := serve_all h' (Main.file r) in
      (f', Main.response r :: rs)
  end.

End Server.

(** ** Observations on a store *)

Module Observe.
Import Sqlite.

(** The negative result of a storage call. *)
Definition negative (a : Client.Answer) : bool :=
  match a with
  | Client.Listed [] => true
  | Client.Fetched None => true
  | Client.Created new_id => new_id =? -1
  | Client.Updated false => true
  | Client.Deleted false => true
  | _ => false
  end.

(** Every stored price is positive. *)
Definition prices_positive (f : File) : Prop :=
  Forall (fun r => 0 < Row.price r) (Client.stored f).

(** No stored row has this id. *)
Definition not_stored (i : Z) (f : File) : Prop :=
  Forall (fun r => Row.id r <> i) (Client.stored f).

(** The price a storage call writes, if it writes one, is positive. *)
Definition writes_positive_price (c : Client.Call) : Prop :=
  match c with
  | Client.CreateBook _ _ _ price _ _ _ => 0 < price
  | Client.UpdateBook _ _ _ _ price _ _ _ => 0 < price
  | _ => True
  end.

End Observe.

(** ** Sample data *)

Module Sample.
Import Sqlite.

Definition noon : string := "2024-05-01 12:00:00".

Definition fine : Env := mkEnv NoFault noon.
Definition unreachable : Env := mkEnv ConnectFault noon.
Definition failing : Env := mkEnv ExecuteFault noon.

Definition book (i : Z) (title : string) : Row.t :=
  Row.mk i title "B" None 100 None None None noon.

Definition one_book : File := Books (mkTable [book 1 "A"] 1).

Definition five_books : File :=
  Books (mkTable [book 1 "A"; book 2 "C"; book 4 "D"; book 5 "E"; book 7 "F"]
                 7).

(** The request body [{"title": "A", "author": "B", "price": 100}]. *)
Definition body_A : Models.Payload :=
  Models.mkPayload (Some "A"%string) (Some "B"%string) None (Some 100) None
                   None None.

(** A body without a title: [{"author": "B", "price": 100}]. *)
Definition body_untitled : Models.Payload :=
  Models.mkPayload None (Some "B"%string) None (Some 100) None None None.

(** Two stretches of a store's life: a first create on a missing file, then
    a delete of that book, a create, a create without title, a create under
    a statement fault, and one more create. *)
Definition first_day : list (Env * Client.Call) :=
  [(fine, Client.CreateBook (Some "A"%string) (Some "B"%string) None 100 None
                            None None)].

Definition second_day : list (Env * Client.Call) :=
  [(fine, Client.DeleteBook 1);
   (fine, Client.CreateBook (Some "C"%string) (Some "B"%string) None 20 None
                            None None);
   (fine, Client.CreateBook None (Some "B"%string) None 20 None None None);
   (failing, Client.CreateBook (Some "D"%string) (Some "B"%string) None 20
                               None None None);
   (fine, Client.CreateBook (Some "E"%string) (Some "B"%string) None 30 None
                            None None)].

(** A few requests: a valid create, a create with price 0, a replacement
    of book 1 whose re-fetch fails, a delete of an unknown id. *)
Definition busy_day : list (Env * Env * Server.Request) :=
  [(fine, fine, Server.PostBooks body_A);
   (fine, fine,
    Server.PostBooks
      (Models.mkPayload (Some "Z"%string) (Some "B"%string) None (Some 0)
                        None None None));
   (fine, failing,
    Server.PutBook 1
      (Models.mkPayload (Some "A2"%string) (Some "B"%string) None (Some 5)
                        None None None));
   (fine, fine, Server.DeleteBook 9)].

End Sample.

(** * Properties *)

Import Sqlite.

(** ** The engine: rowids, insertion, pages *)

Section Engine.

Lemma fits_int64_spec (z : Z) :
  fits_int64 z = true <-> INT64_MIN <= z <= INT64_MAX.
Proof.
  unfold fits_int64. rewrite andb_true_iff, !Z.leb_le. tauto.
Qed.

Lemma max_rowid_nonneg (l : list Row.t) : 0 <= max_rowid l.
Proof.
  induction l as [|x xs IH]; simpl; lia.
Qed.

Lemma max_rowid_bounds (l : list Row.t) :
  Forall (fun r => Row.id r <= max_rowid l) l.
Proof.
  induction l as [|x xs IH]; simpl; constructor.
  - lia.
  - eapply Forall_impl; [|exact IH]. simpl. intros; lia.
Qed.

(** A row whose id exceeds all others goes to the end of the table. *)
Lemma btree_insert_last (r : Row.t) (l : list Row.t) :
  Forall (fun x => Row.id x < Row.id r) l ->
  btree_insert r l = l ++ [r].
Proof.
  induction 1 as [|x xs Hx _ IH]; simpl; [reflexivity|].
  destruct (Z.ltb_spec (Row.id r) (Row.id x)); [lia|].
  now rewrite IH.
Qed.

Lemma filter_has_id_none (i : Z) (l : list Row.t) :
  Forall (fun x => Row.id x < i) l -> filter (has_id i) l = [].
Proof.
  induction 1 as [|x xs Hx _ IH]; simpl; [reflexivity|].
  unfold has_id at 1. destruct (Z.eqb_spec (Row.id x) i); [lia|exact IH].
Qed.

Lemma filter_has_id_deleted (i : Z) (l : list Row.t) :
  filter (has_id i) (filter (fun r => negb (has_id i r)) l) = [].
Proof.
  induction l as [|x xs IH]; simpl; [reflexivity|].
  destruct (has_id i x) eqn:E; simpl; [exact IH|].
  now rewrite E.
Qed.

Lemma filter_has_id_updated (i : Z) (g : Row.t -> Row.t) (l : list Row.t) :
  (forall r, Row.id (g r) = Row.id r) ->
  filter (has_id i) (map (fun r => if has_id i r then g r else r) l)
  = map g (filter (has_id i) l).
Proof.
  intros Hg. induction l as [|x xs IH]; simpl; [reflexivity|].
  destruct (has_id i x) eqn:E.
  - assert (has_id i (g x) = true) as -> by (unfold has_id in *; now rewrite Hg).
    simpl. now rewrite IH.
  - rewrite E. exact IH.
Qed.

Lemma filter_has_id_in (i : Z) (r : Row.t) (l : list Row.t) :
  In r l -> Row.id r = i -> filter (has_id i) l <> [].
Proof.
  intros Hin Hid Hnil.
  assert (In r (filter (has_id i) l)) as H.
  { apply filter_In. split; [exact Hin|]. unfold has_id. now apply Z.eqb_eq. }
  rewrite Hnil in H. exact H.
Qed.

Lemma limit_offset_negative (limit offset : Z) (l : list Row.t) :
  limit < 0 -> limit_offset limit offset l = skipn (Z.to_nat offset) l.
Proof.
  intros H. unfold limit_offset.
  destruct (Z.ltb_spec limit 0); [reflexivity|lia].
Qed.

Lemma limit_offset_positive (limit offset : Z) (l : list Row.t) :
  0 <= limit ->
  limit_offset limit offset l
  = firstn (Z.to_nat limit) (skipn (Z.to_nat offset) l).
Proof.
  intros H. unfold limit_offset.
  destruct (Z.ltb_spec limit 0); [lia|reflexivity].
Qed.

End Engine.

(** ** The connection *)

Section Connection.
Import Database.

Lemma connection_on_table (e : Env) (t : Table) :
  get_db_connection e (Books t)
  = (Books t, match fault e with ConnectFault => None | _ => Some Conn end).
Proof.
  unfold get_db_connection, connect. now destruct (fault e).
Qed.

Lemma connection_on_empty_file (e : Env) :
  get_db_connection e NoTable
  = (NoTable, match fault e with ConnectFault => None | _ => Some Conn end).
Proof.
  unfold get_db_connection, connect. now destruct (fault e).
Qed.

Lemma connection_bootstrap (e : Env) :
  get_db_connection e Absent
  = match fault e with
    | NoFault => (Books empty_table, Some Conn)
    | ConnectFault => (Absent, None)
    | ExecuteFault => (NoTable, None)
    end.
Proof.
  unfold get_db_connection, connect, create_table. now destruct (fault e).
Qed.

End Connection.

(** ** The storage functions, case by case *)

Section Storage.
Import Database.

Lemma healthy_true (e : Env) : healthy e = true <-> fault e = NoFault.
Proof.
  unfold healthy. destruct (fault e); split; congruence.
Qed.

Lemma limit_offset_nil (limit offset : Z) : limit_offset limit offset [] = [].
Proof.
  unfold limit_offset. rewrite skipn_nil.
  destruct (limit <? 0); [reflexivity|apply firstn_nil].
Qed.

(** [get_all_books]: the page of the stored rows when the call is healthy
    and both parameters bind, the empty list otherwise. *)
Lemma get_all_books_eq (e : Env) (skip limit : Z) (f : File) :
  get_all_books e skip limit f
  = (fst (get_db_connection e f),
     if healthy e && fits_int64 limit && fits_int64 skip
     then limit_offset limit skip (Client.stored f)
     else []).
Proof.
  unfold get_all_books, get_all_books_try, execute, healthy.
  destruct f as [| |t].
  - rewrite connection_bootstrap. destruct (fault e) eqn:E; simpl; rewrite ?E;
      try reflexivity.
    rewrite limit_offset_nil.
    now destruct (fits_int64 limit && fits_int64 skip).
  - rewrite connection_on_empty_file. rewrite limit_offset_nil.
    destruct (fault e); simpl;
      now destruct (fits_int64 limit && fits_int64 skip).
  - rewrite connection_on_table.
    destruct (fault e) eqn:E; simpl; rewrite ?E;
      now destruct (fits_int64 limit && fits_int64 skip).
Qed.

(** [get_book_by_id]: the first stored row with that id. *)
Lemma get_book_by_id_eq (e : Env) (book_id : Z) (f : File) :
  get_book_by_id e book_id f
  = (fst (get_db_connection e f),
     if healthy e && fits_int64 book_id
     then hd_error (filter (has_id book_id) (Client.stored f))
     else None).
Proof.
  unfold get_book_by_id, get_book_by_id_try, execute, healthy, fetchone.
  destruct f as [| |t].
  - rewrite connection_bootstrap. destruct (fault e) eqn:E; simpl; rewrite ?E;
      try reflexivity.
    now destruct (fits_int64 book_id).
  - rewrite connection_on_empty_file.
    destruct (fault e); simpl; now destruct (fits_int64 book_id).
  - rewrite connection_on_table.
    destruct (fault e) eqn:E; simpl; rewrite ?E;
      destruct (fits_int64 book_id); simpl; try reflexivity.
    now destruct (filter (has_id book_id) (rows t)).
Qed.

(** A read leaves the stored rows and the rowid counter as they were. *)
Lemma connection_keeps_rows (e : Env) (f : File) :
  Client.stored (fst (get_db_connection e f)) = Client.stored f /\
  Client.high_water (fst (get_db_connection e f)) = Client.high_water f.
Proof.
  destruct f as [| |t].
  - rewrite connection_bootstrap. now destruct (fault e).
  - now rewrite connection_on_empty_file.
  - now rewrite connection_on_table.
Qed.

(** [create_book] on a healthy call with valid columns: the new row gets the
    rowid after the largest one the table has ever held. *)
Lemma create_book_ok (e : Env) (ti au : string) (publisher : option string)
    (price : Z) (publish_date isbn cover_url : option string) (f : File) :
  fault e = NoFault -> f <> NoTable -> fits_int64 price = true ->
  Z.max (Client.high_water f) (max_rowid (Client.stored f)) < INT64_MAX ->
  let new_id := Z.max (Client.high_water f) (max_rowid (Client.stored f)) + 1 in
  create_book e (Some ti) (Some au) publisher price publish_date isbn
              cover_url f
  = (Books (mkTable
              (btree_insert
                 (Row.mk new_id ti au publisher price publish_date isbn
                         cover_url (now e))
                 (Client.stored f))
              new_id),
     new_id).
Proof.
  intros He Hf Hp Hmax new_id. subst new_id.
  unfold create_book, create_book_try, execute.
  destruct f as [| |t]; [| congruence |].
  - rewrite connection_bootstrap, He. simpl. rewrite Hp, ?He. simpl in *.
    destruct (Z.ltb_spec (Z.max 0 0) INT64_MAX); [reflexivity|lia].
  - rewrite connection_on_table, He. simpl. rewrite Hp, ?He. simpl in *.
    destruct (Z.ltb_spec (Z.max (seq t) (max_rowid (rows t))) INT64_MAX);
      [reflexivity|lia].
Qed.

(** Every way [create_book] can end. *)
Lemma create_book_cases (e : Env) (title author publisher : option string)
    (price : Z) (publish_date isbn cover_url : option string) (f : File) :
  create_book e title author publisher price publish_date isbn cover_url f
  = (fst (get_db_connection e f), -1)
  \/
  exists ti au,
    title = Some ti /\ author = Some au /\
    fault e = NoFault /\ f <> NoTable /\ fits_int64 price = true /\
    Z.max (Client.high_water f) (max_rowid (Client.stored f)) < INT64_MAX.
Proof.
  unfold create_book, create_book_try, execute.
  destruct f as [| |t].
  - rewrite connection_bootstrap.
    destruct (fault e) eqn:E; simpl; rewrite ?E; auto.
    destruct (fits_int64 price) eqn:Hp; auto.
    destruct title as [ti|], author as [au|]; simpl; auto.
    right. exists ti, au. repeat split; auto. discriminate.
  - rewrite connection_on_empty_file. destruct (fault e); simpl; auto.
  - rewrite connection_on_table.
    destruct (fault e) eqn:E; simpl; rewrite ?E; auto;
      destruct (fits_int64 price) eqn:Hp; auto.
    destruct title as [ti|], author as [au|]; simpl; auto.
    destruct (Z.ltb_spec (Z.max (seq t) (max_rowid (rows t))) INT64_MAX); auto.
    right. exists ti, au. repeat split; auto. discriminate.
Qed.

Lemma filter_out_absent_id (i : Z) (l : list Row.t) :
  filter (has_id i) l = [] -> filter (fun r => negb (has_id i r)) l = l.
Proof.
  induction l as [|x xs IH]; simpl; [reflexivity|].
  destruct (has_id i x); simpl; [discriminate|].
  intros H. now rewrite IH.
Qed.

Lemma rowcount_positive (hit : list Row.t) :
  (Z.of_nat (List.length hit) >? 0) = negb (match hit with [] => true | _ => false end).
Proof.
  destruct hit as [|x xs]; [reflexivity|].
  simpl List.length. rewrite Z.gtb_ltb. simpl negb.
  apply Z.ltb_lt. lia.
Qed.

(** Every way [update_book] can end. *)
Lemma update_book_cases (e : Env) (book_id : Z)
    (title author publisher : option string) (price : Z)
    (publish_date isbn cover_url : option string) (f : File) :
  update_book e book_id title author publisher price publish_date isbn
              cover_url f
  = (fst (get_db_connection e f), false)
  \/
  exists ti au,
    title = Some ti /\ author = Some au /\
    fault e = NoFault /\ fits_int64 price = true /\
    fits_int64 book_id = true /\
    filter (has_id book_id) (Client.stored f) <> [] /\
    update_book e book_id title author publisher price publish_date isbn
                cover_url f
    = (Books (mkTable
                (map (fun r => if has_id book_id r
                               then set_columns ti au publisher price
                                                publish_date isbn cover_url r
                               else r)
                     (Client.stored f))
                (Client.high_water f)),
       true).
Proof.
  unfold update_book, update_book_try, execute.
  destruct f as [| |t].
  - rewrite connection_bootstrap.
    destruct (fault e) eqn:E; simpl; rewrite ?E; auto.
    destruct (fits_int64 price && fits_int64 book_id); auto.
  - rewrite connection_on_empty_file. destruct (fault e); simpl; auto.
  - rewrite connection_on_table.
    destruct (fault e) eqn:E; simpl; rewrite ?E; auto;
      destruct (fits_int64 price) eqn:Hp; simpl; auto;
      destruct (fits_int64 book_id) eqn:Hi; simpl; auto.
    destruct (filter (has_id book_id) (rows t)) as [|x xs] eqn:Hhit; auto.
    destruct title as [ti|], author as [au|]; simpl; auto.
    right. exists ti, au. repeat split; auto. discriminate.
Qed.

(** Every way [delete_book] can end. *)
Lemma delete_book_cases (e : Env) (book_id : Z) (f : File) :
  delete_book e book_id f = (fst (get_db_connection e f), false)
  \/
  (fault e = NoFault /\ fits_int64 book_id = true /\
   filter (has_id book_id) (Client.stored f) <> [] /\
   delete_book e book_id f
   = (Books (mkTable
               (filter (fun r => negb (has_id book_id r)) (Client.stored f))
               (Client.high_water f)),
      true)).
Proof.
  unfold delete_book, delete_book_try, execute.
  destruct f as [| |t].
  - rewrite connection_bootstrap.
    destruct (fault e) eqn:E; simpl; rewrite ?E; auto.
    destruct (fits_int64 book_id); auto.
  - rewrite connection_on_empty_file. destruct (fault e); simpl; auto.
  - rewrite connection_on_table.
    destruct (fault e) eqn:E; simpl; rewrite ?E; auto;
      destruct (fits_int64 book_id) eqn:Hi; simpl; auto.
    rewrite rowcount_positive.
    destruct (filter (has_id book_id) (rows t)) as [|x xs] eqn:Hhit; simpl.
    + left. rewrite (filter_out_absent_id _ _ Hhit). now destruct t.
    + right. repeat split; auto. discriminate.
Qed.

End Storage.

(** ** Listing *)

Section Listing.
Import Database.

Lemma skipn_ascending (n : nat) (l : list Row.t) :
  Client.ids_ascending l -> Client.ids_ascending (skipn n l).
Proof.
  unfold Client.ids_ascending. revert l.
  induction n as [|n IH]; intros l H; simpl; [exact H|].
  destruct l as [|x xs]; [exact H|].
  apply IH. now inversion H.
Qed.

Lemma firstn_ascending (n : nat) (l : list Row.t) :
  Client.ids_ascending l -> Client.ids_ascending (firstn n l).
Proof.
  unfold Client.ids_ascending. revert l.
  induction n as [|n IH]; intros l H; simpl; [constructor|].
  destruct l as [|x xs]; [constructor|].
  inversion H as [|? ? Hs Hall]; subst.
  constructor; [now apply IH|].
  rewrite Forall_forall in *. intros y Hy.
  apply Hall. revert Hy. rewrite <- (firstn_skipn n xs) at 2.
  intros Hy. apply in_or_app. now left.
Qed.

Lemma wf_file_ascending (f : File) :
  Client.wf_file f -> Client.ids_ascending (Client.stored f).
Proof.
  destruct f as [| |t]; simpl; try (intros _; constructor).
  now intros [H _].
Qed.

(** What [get_all_books] returns with a limit of 0: nothing. *)
Lemma get_all_books_limit_zero (e : Env) (skip : Z) (f : File) :
  snd (get_all_books e skip 0 f) = [].
Proof.
  rewrite get_all_books_eq. simpl.
  now destruct (healthy e && fits_int64 0 && fits_int64 skip).
Qed.

End Listing.

(** C1, as stated, fails: on a store holding one book, a list call with
    [limit = 0] does not return that book, and neither does the route
    [GET /books] when [limit] is left out. *)
Lemma limit_zero_is_not_unbounded :
  snd (Database.get_all_books Sample.fine 0 0 Sample.one_book)
    <> skipn (Z.to_nat 0) (Client.stored Sample.one_book) /\
  Main.response (Main.GET_books Sample.fine None None Sample.one_book)
    <> Main.Reply 200 (Main.BooksJson (Client.stored Sample.one_book)).
Proof.
  split; vm_compute; discriminate.
Qed.

(** C1, amended: with [limit = 0] the list operation returns the empty list,
    whatever the store holds and whatever [skip] is; the route [GET /books]
    with [limit] left out passes its default 0 and answers 200 with an empty
    array. *)
Theorem limit_zero_lists_nothing :
  forall (e : Env) (skip : Z) (f : File),
    snd (Database.get_all_books e skip 0 f) = [] /\
    forall q_skip : option Z,
      Main.response (Main.GET_books e q_skip None f)
      = Main.Reply 200 (Main.BooksJson []).
Proof.
  intros e skip f. split.
  - apply get_all_books_limit_zero.
  - intros q_skip. unfold Main.GET_books, Main.get_books. simpl.
    pose proof (get_all_books_limit_zero e (Main.query_default 0 q_skip) f) as H.
    destruct (Database.get_all_books e (Main.query_default 0 q_skip) 0 f)
      as [f1 books].
    simpl in *. now subst.
Qed.

(** C10, as stated, fails: a negative [limit] below the 64-bit range cannot
    be bound to the statement, and the list call returns nothing from a store
    that holds a book. *)
Lemma huge_negative_limit_lists_nothing :
  (-9223372036854775809 < 0) /\
  snd (Database.get_all_books Sample.fine 0 (-9223372036854775809)
                              Sample.one_book)
    <> skipn (Z.to_nat 0) (Client.stored Sample.one_book).
Proof.
  split; [lia|]. vm_compute. discriminate.
Qed.

(** C10, amended: for every negative [limit] that fits in a signed 64-bit
    integer (with [skip] in that range too, a negative [skip] skipping
    nothing), a healthy list call returns all stored rows after the first
    [skip] rows, and so does the route [GET /books]; in particular
    [limit = -1] with [skip = 0] returns every stored row. *)
Theorem negative_limit_is_unbounded :
  forall (e : Env) (skip limit : Z) (f : File),
    limit < 0 ->
    fits_int64 limit = true -> fits_int64 skip = true ->
    fault e = NoFault ->
    snd (Database.get_all_books e skip limit f)
      = skipn (Z.to_nat skip) (Client.stored f) /\
    Main.response (Main.GET_books e (Some skip) (Some limit) f)
      = Main.Reply 200 (Main.BooksJson (skipn (Z.to_nat skip) (Client.stored f))) /\
    snd (Database.get_all_books e 0 (-1) f) = Client.stored f.
Proof.
  intros e skip limit f Hneg Hl Hs He.
  apply healthy_true in He.
  assert (snd (Database.get_all_books e skip limit f)
          = skipn (Z.to_nat skip) (Client.stored f)) as H.
  { rewrite get_all_books_eq. simpl. rewrite He, Hl, Hs. simpl.
    now apply limit_offset_negative. }
  repeat split.
  - exact H.
  - unfold Main.GET_books, Main.get_books. simpl.
    destruct (Database.get_all_books e skip limit f) as [f1 books].
    simpl in *. now subst.
  - rewrite get_all_books_eq. simpl. rewrite He. reflexivity.
Qed.

Lemma negative_limit_is_unbounded_witness :
  snd (Database.get_all_books Sample.fine 1 (-1) Sample.five_books)
    = skipn (Z.to_nat 1) (Client.stored Sample.five_books) /\
  Main.response (Main.GET_books Sample.fine (Some 1) (Some (-1))
                                Sample.five_books)
    = Main.Reply 200
        (Main.BooksJson (skipn (Z.to_nat 1) (Client.stored Sample.five_books))) /\
  snd (Database.get_all_books Sample.fine 0 (-1) Sample.five_books)
    = Client.stored Sample.five_books.
Proof.
  apply (negative_limit_is_unbounded Sample.fine 1 (-1) Sample.five_books);
    [lia | reflexivity | reflexivity | reflexivity].
Defined.

(** ** Insertion order *)

Section InsertionOrder.
Import Database.

(** A successful [create_book] puts its row after every stored row. *)
Lemma create_book_appends (e : Env) (title author publisher : option string)
    (price : Z) (publish_date isbn cover_url : option string)
    (f f' : File) (new_id : Z) :
  create_book e title author publisher price publish_date isbn cover_url f
    = (f', new_id) ->
  new_id <> -1 ->
  exists ti au,
    title = Some ti /\ author = Some au /\
    new_id = Z.max (Client.high_water f) (max_rowid (Client.stored f)) + 1 /\
    new_id <= INT64_MAX /\
    f' = Books (mkTable
                  (Client.stored f ++
                   [Row.mk new_id ti au publisher price publish_date isbn
                           cover_url (now e)])
                  new_id).
Proof.
  intros Hc Hid.
  destruct (create_book_cases e title author publisher price publish_date
              isbn cover_url f) as [Hfail | (ti & au & -> & -> & He & Hf & Hp & Hmax)].
  - rewrite Hfail in Hc. inversion Hc. congruence.
  - rewrite (create_book_ok e ti au publisher price publish_date isbn
               cover_url f He Hf Hp Hmax) in Hc.
    inversion Hc as [[Hf' Hnew]]. clear Hc.
    exists ti, au. repeat split; try lia.
    rewrite btree_insert_last; [reflexivity|].
    simpl. eapply Forall_impl; [|apply max_rowid_bounds].
    simpl. intros; lia.
Qed.

End InsertionOrder.

(** C7.  On every store the engine has written, a list call with a positive
    [limit] returns stored rows in scan order, which is insertion order
    (ascending rowid, and a successful create puts its row last): a run of
    at most [limit] rows that starts after the first [skip] rows, and the
    full run of [limit] rows (or what is left) when the call is healthy and
    both parameters bind.  On a store of 5 rows, [skip = 0, limit = 2]
    returns exactly the first two rows and [skip = 4, limit = 2] exactly the
    last one. *)
Theorem list_pages_in_insertion_order :
  forall (e : Env) (skip limit : Z) (f : File),
    Client.wf_file f -> 0 < limit ->
    let page := snd (Database.get_all_books e skip limit f) in
    (exists n : nat,
        (n <= Z.to_nat limit)%nat /\
        page = firstn n (skipn (Z.to_nat skip) (Client.stored f))) /\
    Client.ids_ascending page /\
    (fault e = NoFault ->
     fits_int64 limit = true -> fits_int64 skip = true ->
     page = firstn (Z.to_nat limit) (skipn (Z.to_nat skip) (Client.stored f))) /\
    (fault e = NoFault -> List.length (Client.stored f) = 5%nat ->
     snd (Database.get_all_books e 0 2 f) = firstn 2 (Client.stored f) /\
     List.length (snd (Database.get_all_books e 0 2 f)) = 2%nat /\
     snd (Database.get_all_books e 4 2 f) = skipn 4 (Client.stored f) /\
     List.length (snd (Database.get_all_books e 4 2 f)) = 1%nat) /\
    (forall e' title author publisher price publish_date isbn cover_url f'
            new_id,
        Database.create_book e' title author publisher price publish_date
                             isbn cover_url f = (f', new_id) ->
        new_id <> -1 ->
        exists r, Client.stored f' = Client.stored f ++ [r] /\
                  Row.id r = new_id /\
                  Forall (fun x => Row.id x < new_id) (Client.stored f)).
Proof.
  intros e skip limit f Hwf Hlim page.
  assert (page = if healthy e && fits_int64 limit && fits_int64 skip
                 then firstn (Z.to_nat limit)
                             (skipn (Z.to_nat skip) (Client.stored f))
                 else []) as Hpage.
  { subst page. rewrite get_all_books_eq. simpl.
    rewrite limit_offset_positive by lia. reflexivity. }
  split; [|split; [|split; [|split]]].
  - rewrite Hpage.
    destruct (healthy e && fits_int64 limit && fits_int64 skip).
    + exists (Z.to_nat limit). split; [lia|reflexivity].
    + exists 0%nat. split; [lia|reflexivity].
  - rewrite Hpage.
    destruct (healthy e && fits_int64 limit && fits_int64 skip);
      [|constructor].
    apply firstn_ascending, skipn_ascending, wf_file_ascending, Hwf.
  - intros He Hl Hs. apply healthy_true in He.
    rewrite Hpage, He, Hl, Hs. reflexivity.
  - intros He Hlen. apply healthy_true in He.
    rewrite !get_all_books_eq. simpl. rewrite He. simpl.
    rewrite !limit_offset_positive by lia.
    change (Z.to_nat 0) with 0%nat. change (Z.to_nat 2) with 2%nat.
    change (Z.to_nat 4) with 4%nat.
    destruct (Client.stored f) as [|r1 [|r2 [|r3 [|r4 [|r5 [|r6 l]]]]]];
      try discriminate.
    repeat split.
  - intros e' title author publisher price publish_date isbn cover_url f'
           new_id Hc Hid.
    destruct (create_book_appends _ _ _ _ _ _ _ _ _ _ _ Hc Hid)
      as (ti & au & _ & _ & Hnew & _ & ->).
    eexists. simpl. split; [reflexivity|]. split; [reflexivity|].
    eapply Forall_impl; [|apply max_rowid_bounds].
    simpl. intros; lia.
Qed.

Lemma list_pages_in_insertion_order_witness :
  let page := snd (Database.get_all_books Sample.fine 1 2 Sample.five_books) in
  page = [Sample.book 2 "C"; Sample.book 4 "D"] /\
  Client.wf_file Sample.five_books /\ 0 < 2 /\
  List.length (snd (Database.get_all_books Sample.fine 4 2 Sample.five_books))
    = 1%nat.
Proof.
  intros page. subst page.
  assert (Client.wf_file Sample.five_books) as Hwf.
  { simpl. unfold Client.wf_table, Client.ids_ascending. simpl.
    split; [|split].
    - repeat (constructor; [|repeat constructor; simpl; lia]). constructor.
    - repeat constructor; simpl; lia.
    - unfold INT64_MAX. lia. }
  assert (0 < 2) as Hlim by lia.
  pose proof (list_pages_in_insertion_order Sample.fine 1 2 Sample.five_books
                Hwf Hlim) as (_ & _ & Hexact & Hfive & _).
  split; [|split; [exact Hwf|split; [exact Hlim|]]].
  - rewrite (Hexact eq_refl eq_refl eq_refl). reflexivity.
  - apply (Hfive eq_refl eq_refl).
Defined.

(** ** Create, update, delete, then get *)

Section RoundTrips.
Import Database.

Lemma filter_has_id_appended (r : Row.t) (l : list Row.t) :
  Forall (fun x => Row.id x < Row.id r) l ->
  filter (has_id (Row.id r)) (l ++ [r]) = [r].
Proof.
  intros H. rewrite filter_app, (filter_has_id_none _ _ H). simpl.
  unfold has_id. now rewrite Z.eqb_refl.
Qed.

(** A healthy [get_book_by_id] on a table. *)
Lemma get_book_by_id_on_table (e : Env) (book_id : Z) (t : Table) :
  fault e = NoFault -> fits_int64 book_id = true ->
  get_book_by_id e book_id (Books t)
  = (Books t, hd_error (filter (has_id book_id) (rows t))).
Proof.
  intros He Hi. apply healthy_true in He.
  rewrite get_book_by_id_eq, connection_on_table. simpl.
  now rewrite He, Hi.
Qed.

End RoundTrips.

(** C2.  When [create_book] succeeds (its result is not the sentinel), a
    healthy [get_book_by_id] of the returned id, run next, finds a record
    with that id whose seven fields are the values passed to [create_book];
    the store is left as the create left it. *)
Theorem create_then_get_round_trip :
  forall (e e' : Env) (title author publisher : option string) (price : Z)
         (publish_date isbn cover_url : option string) (f f' : File)
         (new_id : Z),
    Database.create_book e title author publisher price publish_date isbn
                         cover_url f = (f', new_id) ->
    new_id <> -1 ->
    fault e' = NoFault ->
    exists row,
      Database.get_book_by_id e' new_id f' = (f', Some row) /\
      Row.id row = new_id /\
      Some (Row.title row) = title /\
      Some (Row.author row) = author /\
      Row.publisher row = publisher /\
      Row.price row = price /\
      Row.publish_date row = publish_date /\
      Row.isbn row = isbn /\
      Row.cover_url row = cover_url.
Proof.
  intros e e' title author publisher price publish_date isbn cover_url f f'
         new_id Hc Hid He'.
  destruct (create_book_appends _ _ _ _ _ _ _ _ _ _ _ Hc Hid)
    as (ti & au & -> & -> & Hnew & Hmax & ->).
  eexists. split.
  - rewrite get_book_by_id_on_table; [|exact He'|].
    + simpl rows.
      rewrite (filter_has_id_appended
                 (Row.mk new_id ti au publisher price publish_date isbn
                         cover_url (now e))).
      * reflexivity.
      * simpl. eapply Forall_impl; [|apply max_rowid_bounds].
        simpl. intros; lia.
    + apply fits_int64_spec. pose proof (max_rowid_nonneg (Client.stored f)).
      unfold INT64_MIN. lia.
  - simpl. repeat split; reflexivity.
Qed.

Lemma create_then_get_round_trip_witness :
  exists row,
    Database.get_book_by_id Sample.fine 8
      (fst (Database.create_book Sample.fine (Some "A"%string)
              (Some "B"%string) None 100 (Some "2020"%string) None None
              Sample.five_books))
    = (fst (Database.create_book Sample.fine (Some "A"%string)
              (Some "B"%string) None 100 (Some "2020"%string) None None
              Sample.five_books),
       Some row) /\
    Row.id row = 8 /\
    Some (Row.title row) = Some "A"%string /\
    Some (Row.author row) = Some "B"%string /\
    Row.publisher row = None /\
    Row.price row = 100 /\
    Row.publish_date row = Some "2020"%string /\
    Row.isbn row = None /\
    Row.cover_url row = None.
Proof.
  apply (create_then_get_round_trip Sample.fine Sample.fine
           (Some "A"%string) (Some "B"%string) None 100 (Some "2020"%string)
           None None Sample.five_books);
    [reflexivity | lia | reflexivity].
Defined.

(** C3.  When [update_book] succeeds, a healthy [get_book_by_id] of the same
    id, run next, finds a record with that id whose seven mutable fields are
    the values passed to [update_book], whatever the row held before. *)
Theorem update_then_get_new_fields :
  forall (e e' : Env) (book_id : Z) (title author publisher : option string)
         (price : Z) (publish_date isbn cover_url : option string)
         (f f' : File),
    Database.update_book e book_id title author publisher price publish_date
                         isbn cover_url f = (f', true) ->
    fault e' = NoFault ->
    exists row,
      Database.get_book_by_id e' book_id f' = (f', Some row) /\
      Row.id row = book_id /\
      Some (Row.title row) = title /\
      Some (Row.author row) = author /\
      Row.publisher row = publisher /\
      Row.price row = price /\
      Row.publish_date row = publish_date /\
      Row.isbn row = isbn /\
      Row.cover_url row = cover_url.
Proof.
  intros e e' book_id title author publisher price publish_date isbn
         cover_url f f' Hu He'.
  destruct (update_book_cases e book_id title author publisher price
              publish_date isbn cover_url f)
    as [Hfail | (ti & au & -> & -> & He & Hp & Hi & Hhit & Hok)].
  - rewrite Hfail in Hu. inversion Hu.
  - rewrite Hok in Hu. inversion Hu as [Hf']. clear Hu.
    rewrite get_book_by_id_on_table by assumption. simpl rows.
    rewrite filter_has_id_updated by reflexivity.
    destruct (filter (has_id book_id) (Client.stored f)) as [|old rest] eqn:E;
      [congruence|].
    eexists. split; [reflexivity|]. simpl.
    assert (In old (filter (has_id book_id) (Client.stored f))) as Hin
      by (rewrite E; now left).
    apply filter_In in Hin. destruct Hin as [_ Hid].
    unfold has_id in Hid. apply Z.eqb_eq in Hid.
    repeat split; auto.
Qed.

Lemma update_then_get_new_fields_witness :
  exists row,
    Database.get_book_by_id Sample.fine 4
      (fst (Database.update_book Sample.fine 4 (Some "T"%string)
              (Some "U"%string) (Some "P"%string) 7 None None None
              Sample.five_books))
    = (fst (Database.update_book Sample.fine 4 (Some "T"%string)
              (Some "U"%string) (Some "P"%string) 7 None None None
              Sample.five_books),
       Some row) /\
    Row.id row = 4 /\
    Some (Row.title row) = Some "T"%string /\
    Some (Row.author row) = Some "U"%string /\
    Row.publisher row = Some "P"%string /\
    Row.price row = 7 /\
    Row.publish_date row = None /\
    Row.isbn row = None /\
    Row.cover_url row = None.
Proof.
  apply (update_then_get_new_fields Sample.fine Sample.fine 4
           (Some "T"%string) (Some "U"%string) (Some "P"%string) 7 None None
           None Sample.five_books);
    reflexivity.
Defined.

(** C4.  For a stored id: a healthy [delete_book] of it succeeds; and once a
    [delete_book] of an id has succeeded, [get_book_by_id] of that id
    returns [None] and a second [delete_book] of it returns [False], in any
    environment. *)
Theorem delete_then_get_and_delete_again :
  forall (e e1 e2 : Env) (r : Row.t) (f : File),
    In r (Client.stored f) ->
    (fault e = NoFault -> fits_int64 (Row.id r) = true ->
     snd (Database.delete_book e (Row.id r) f) = true) /\
    (snd (Database.delete_book e (Row.id r) f) = true ->
     let f' := fst (Database.delete_book e (Row.id r) f) in
     snd (Database.get_book_by_id e1 (Row.id r) f') = None /\
     snd (Database.delete_book e2 (Row.id r) f') = false /\
     Forall (fun x => Row.id x <> Row.id r) (Client.stored f')).
Proof.
  intros e e1 e2 r f Hin.
  destruct (delete_book_cases e (Row.id r) f)
    as [Hfail | (He & Hi & Hhit & Hok)].
  - split.
    + intros He Hi. exfalso.
      destruct f as [| |t]; try contradiction.
      revert Hfail. apply healthy_true in He. unfold healthy in He.
      unfold Database.delete_book, Database.delete_book_try, execute.
      rewrite connection_on_table.
      destruct (fault e); try discriminate. simpl. rewrite Hi. simpl.
      rewrite rowcount_positive.
      destruct (filter (has_id (Row.id r)) (rows t)) eqn:E.
      * exfalso. eapply filter_has_id_in; eauto.
      * simpl. discriminate.
    + rewrite Hfail. discriminate.
  - rewrite Hok. simpl. split; [reflexivity|]. intros _.
    split; [|split].
    + rewrite get_book_by_id_eq. simpl. rewrite filter_has_id_deleted.
      now destruct (healthy e1 && fits_int64 (Row.id r)).
    + destruct (delete_book_cases e2 (Row.id r)
                  (Books (mkTable
                            (filter (fun x => negb (has_id (Row.id r) x))
                                    (Client.stored f))
                            (Client.high_water f))))
        as [-> | (_ & _ & Hhit2 & _)]; [reflexivity|].
      simpl in Hhit2. now rewrite filter_has_id_deleted in Hhit2.
    + apply Forall_forall. intros x Hx. apply filter_In in Hx.
      destruct Hx as [_ Hx]. unfold has_id in Hx.
      destruct (Z.eqb_spec (Row.id x) (Row.id r)); [discriminate|assumption].
Qed.

Lemma delete_then_get_and_delete_again_witness :
  In (Sample.book 4 "D") (Client.stored Sample.five_books) /\
  snd (Database.delete_book Sample.fine 4 Sample.five_books) = true /\
  snd (Database.get_book_by_id Sample.fine 4
         (fst (Database.delete_book Sample.fine 4 Sample.five_books))) = None /\
  snd (Database.delete_book Sample.fine 4
         (fst (Database.delete_book Sample.fine 4 Sample.five_books))) = false.
Proof.
  assert (In (Sample.book 4 "D") (Client.stored Sample.five_books)) as Hin
    by (simpl; auto).
  destruct (delete_then_get_and_delete_again Sample.fine Sample.fine
              Sample.fine (Sample.book 4 "D") Sample.five_books Hin)
    as [Hok Hafter].
  split; [exact Hin|]. split; [exact (Hok eq_refl eq_refl)|].
  destruct (Hafter (Hok eq_refl eq_refl)) as (Hget & Hdel & _).
  split; [exact Hget | exact Hdel].
Defined.

(** ** Validation *)

(** C5.  A payload whose [price] is missing or not positive does not
    validate, and [POST /books] and [PUT /books/{id}] then answer with the
    validation error without having called storage (no call made, file
    untouched, in any environment).  A payload with [price = 1] validates
    even when every other field is missing, and so does any payload with a
    positive price: the other fields are taken as they are, present or not.
    Both routes then go on to storage: the first thing [POST] does is the
    create and the first thing [PUT] does is the update, with the fields of
    the payload, and neither answers with the validation error. *)
Theorem price_is_validated_before_storage :
  forall (p : Models.Payload),
    ((Models.p_price p = None \/
      exists n, Models.p_price p = Some n /\ n <= 0) ->
     Models.model_validate p = None /\
     forall (e1 e2 : Env) (book_id : Z) (f : File),
       Main.POST_books e1 e2 p f
         = Main.mkHandled f [] Main.RequestValidationError /\
       Main.PUT_books e1 e2 book_id p f
         = Main.mkHandled f [] Main.RequestValidationError) /\
    Models.model_validate
      (Models.mkPayload None None None (Some 1) None None None)
      = Some (Models.mkBookCreate None None None 1 None None None) /\
    (forall n, Models.p_price p = Some n -> 0 < n ->
       Models.model_validate p
         = Some (Models.mkBookCreate (Models.p_title p) (Models.p_author p)
                   (Models.p_publisher p) n (Models.p_publish_date p)
                   (Models.p_isbn p) (Models.p_cover_url p)) /\
       forall (e1 e2 : Env) (f : File),
         hd_error (Main.calls (Main.POST_books e1 e2 p f))
         = Some (Client.CreateBook (Models.p_title p) (Models.p_author p)
                   (Models.p_publisher p) n (Models.p_publish_date p)
                   (Models.p_isbn p) (Models.p_cover_url p))) /\
    (forall n, Models.p_price p = Some n -> 0 < n ->
       forall (e1 e2 : Env) (book_id : Z) (f : File),
         hd_error (Main.calls (Main.PUT_books e1 e2 book_id p f))
         = Some (Client.UpdateBook book_id (Models.p_title p)
                   (Models.p_author p) (Models.p_publisher p) n
                   (Models.p_publish_date p) (Models.p_isbn p)
                   (Models.p_cover_url p)) /\
         Main.response (Main.PUT_books e1 e2 book_id p f)
           <> Main.RequestValidationError /\
         Main.response (Main.POST_books e1 e2 p f)
           <> Main.RequestValidationError).
Proof.
  intros p.
  assert (forall n, Models.p_price p = Some n -> 0 < n ->
            Models.model_validate p
            = Some (Models.mkBookCreate (Models.p_title p) (Models.p_author p)
                      (Models.p_publisher p) n (Models.p_publish_date p)
                      (Models.p_isbn p) (Models.p_cover_url p))) as Hgood.
  { intros n Hp Hn. unfold Models.model_validate. rewrite Hp, Z.gtb_ltb.
    destruct (Z.ltb_spec 0 n); [reflexivity|lia]. }
  split; [|split; [|split]].
  - intros Hbad.
    assert (Models.model_validate p = None) as Hv.
    { unfold Models.model_validate.
      destruct Hbad as [-> | (n & -> & Hn)]; [reflexivity|].
      rewrite Z.gtb_ltb. destruct (Z.ltb_spec 0 n); [lia|reflexivity]. }
    split; [exact Hv|]. intros e1 e2 book_id f.
    unfold Main.POST_books, Main.PUT_books. now rewrite Hv.
  - reflexivity.
  - intros n Hp Hn. pose proof (Hgood n Hp Hn) as Hv.
    split; [exact Hv|]. intros e1 e2 f.
    unfold Main.POST_books. rewrite Hv. unfold Main.create_book. simpl.
    destruct (Database.create_book e1 (Models.p_title p) (Models.p_author p)
                (Models.p_publisher p) n (Models.p_publish_date p)
                (Models.p_isbn p) (Models.p_cover_url p) f) as [f1 new_id].
    destruct (new_id =? -1); [reflexivity|].
    now destruct (Database.get_book_by_id e2 new_id f1).
  - intros n Hp Hn e1 e2 book_id f. pose proof (Hgood n Hp Hn) as Hv.
    unfold Main.PUT_books, Main.POST_books. rewrite Hv.
    unfold Main.update_book, Main.create_book. simpl.
    destruct (Database.update_book e1 book_id (Models.p_title p)
                (Models.p_author p) (Models.p_publisher p) n
                (Models.p_publish_date p) (Models.p_isbn p)
                (Models.p_cover_url p) f) as [f1 success].
    destruct (Database.create_book e1 (Models.p_title p) (Models.p_author p)
                (Models.p_publisher p) n (Models.p_publish_date p)
                (Models.p_isbn p) (Models.p_cover_url p) f) as [f1' new_id].
    split; [|split].
    + destruct success; simpl; [|reflexivity].
      now destruct (Database.get_book_by_id e2 book_id f1).
    + destruct success; simpl; [|discriminate].
      destruct (Database.get_book_by_id e2 book_id f1) as [f2 [b|]];
        simpl; discriminate.
    + destruct (new_id =? -1); simpl; [discriminate|].
      destruct (Database.get_book_by_id e2 new_id f1') as [f2 [b|]];
        simpl; discriminate.
Qed.

Lemma price_is_validated_before_storage_witness :
  Models.model_validate
    (Models.mkPayload (Some "A"%string) (Some "B"%string) None (Some 0) None
                      None None) = None /\
  Main.POST_books Sample.fine Sample.fine
    (Models.mkPayload (Some "A"%string) (Some "B"%string) None (Some 0) None
                      None None) Absent
    = Main.mkHandled Absent [] Main.RequestValidationError /\
  Main.PUT_books Sample.fine Sample.fine 1
    (Models.mkPayload (Some "A"%string) (Some "B"%string) None (Some 0) None
                      None None) Sample.one_book
    = Main.mkHandled Sample.one_book [] Main.RequestValidationError /\
  Models.model_validate Sample.body_A <> None /\
  hd_error (Main.calls (Main.POST_books Sample.fine Sample.fine Sample.body_A
                                        Sample.one_book))
    = Some (Client.CreateBook (Some "A"%string) (Some "B"%string) None 100
                              None None None) /\
  hd_error (Main.calls (Main.PUT_books Sample.fine Sample.fine 1
                                       Sample.body_A Sample.one_book))
    = Some (Client.UpdateBook 1 (Some "A"%string) (Some "B"%string) None 100
                              None None None) /\
  Main.response (Main.PUT_books Sample.fine Sample.fine 1 Sample.body_A
                                Sample.one_book)
    <> Main.RequestValidationError.
Proof.
  destruct (price_is_validated_before_storage
              (Models.mkPayload (Some "A"%string) (Some "B"%string) None
                                (Some 0) None None None))
    as (Hbad & _ & _ & _).
  destruct Hbad as [Hv Hroutes].
  { right. exists 0. split; [reflexivity|lia]. }
  destruct (Hroutes Sample.fine Sample.fine 1 Absent) as [Hpost _].
  destruct (Hroutes Sample.fine Sample.fine 1 Sample.one_book) as [_ Hput].
  destruct (price_is_validated_before_storage Sample.body_A)
    as (_ & _ & Hgood & Hupdate).
  destruct (Hgood 100 eq_refl ltac:(lia)) as [Hv' Hcreate].
  destruct (Hupdate 100 eq_refl ltac:(lia) Sample.fine Sample.fine 1
                    Sample.one_book) as (Hfirst & Hresp & _).
  split; [exact Hv|]. split; [exact Hpost|]. split; [exact Hput|].
  split; [rewrite Hv'; discriminate|].
  split; [exact (Hcreate Sample.fine Sample.fine Sample.one_book)|].
  split; [exact Hfirst | exact Hresp].
Defined.



(** ** Failures *)

Section Failures.
Import Database.

Variables (e : Env) (f : File).
Variables (skip limit book_id : Z).
Variables (title author publisher : option string) (price : Z).
Variables (publish_date isbn cover_url : option string).

(** [try]/[except]: when there is no connection, or the body raises, the
    function returns its negative result and the file the connection step
    left. *)
Lemma negative_on_exception :
  let f0 := fst (get_db_connection e f) in
  let no_conn := snd (get_db_connection e f) = None in
  (no_conn \/ raises (get_all_books_try e skip limit f0) ->
   get_all_books e skip limit f = (f0, [])) /\
  (no_conn \/ raises (get_book_by_id_try e book_id f0) ->
   get_book_by_id e book_id f = (f0, None)) /\
  (no_conn \/ raises (create_book_try e title author publisher price
                                      publish_date isbn cover_url f0) ->
   create_book e title author publisher price publish_date isbn cover_url f
   = (f0, -1)) /\
  (no_conn \/ raises (update_book_try e book_id title author publisher price
                                      publish_date isbn cover_url f0) ->
   update_book e book_id title author publisher price publish_date isbn
               cover_url f = (f0, false)) /\
  (no_conn \/ raises (delete_book_try e book_id f0) ->
   delete_book e book_id f = (f0, false)).
Proof.
  unfold get_all_books, get_book_by_id, create_book, update_book, delete_book,
    raises.
  destruct (get_db_connection e f) as [f0 [c|]]; simpl;
    repeat split; intros [H | [x H]]; try discriminate; try reflexivity;
    now rewrite H.
Qed.

(** The failure causes: without a connection there is [None]; with one, a
    failing statement or a missing table makes the body raise. *)
Lemma failure_raises (s : Stmt) :
  fault e <> NoFault \/ f = NoTable ->
  snd (get_db_connection e f) = None \/
  raises (execute e (fst (get_db_connection e f)) s).
Proof.
  intros Hcause. unfold raises, execute.
  destruct f as [| |t].
  - rewrite connection_bootstrap.
    destruct (fault e); simpl; auto.
    destruct Hcause; congruence.
  - rewrite connection_on_empty_file. simpl. eauto.
  - rewrite connection_on_table. simpl.
    destruct (fault e); simpl; auto.
    + destruct Hcause; congruence.
    + right. destruct (bindable s); eauto.
Qed.

End Failures.

(** C8.  Under a connection fault, a statement fault or a missing table,
    each of the five storage functions (total functions, whose result type
    has no room for an exception) returns its negative result, [[]], [None],
    [-1], [False], [False], and leaves the stored rows as they were; the
    same negative result comes out whenever there is no connection or the
    body of the [try] raises, whatever the exception.  The sentinel [-1] is
    no valid id: a create returns [-1] or an id of at least 1. *)
Theorem failures_degrade_to_negative_results :
  forall (e : Env) (f : File) (skip limit book_id : Z)
         (title author publisher : option string) (price : Z)
         (publish_date isbn cover_url : option string),
    let f0 := fst (Database.get_db_connection e f) in
    let no_conn := snd (Database.get_db_connection e f) = None in
    (fault e <> NoFault \/ f = NoTable ->
     Database.get_all_books e skip limit f = (f0, []) /\
     Database.get_book_by_id e book_id f = (f0, None) /\
     Database.create_book e title author publisher price publish_date isbn
                          cover_url f = (f0, -1) /\
     Database.update_book e book_id title author publisher price publish_date
                          isbn cover_url f = (f0, false) /\
     Database.delete_book e book_id f = (f0, false) /\
     Client.stored f0 = Client.stored f) /\
    ((no_conn \/ raises (Database.get_all_books_try e skip limit f0) ->
      Database.get_all_books e skip limit f = (f0, [])) /\
     (no_conn \/ raises (Database.get_book_by_id_try e book_id f0) ->
      Database.get_book_by_id e book_id f = (f0, None)) /\
     (no_conn \/
      raises (Database.create_book_try e title author publisher price
                                       publish_date isbn cover_url f0) ->
      Database.create_book e title author publisher price publish_date isbn
                           cover_url f = (f0, -1)) /\
     (no_conn \/
      raises (Database.update_book_try e book_id title author publisher price
                                       publish_date isbn cover_url f0) ->
      Database.update_book e book_id title author publisher price
                           publish_date isbn cover_url f = (f0, false)) /\
     (no_conn \/ raises (Database.delete_book_try e book_id f0) ->
      Database.delete_book e book_id f = (f0, false))) /\
    (snd (Database.create_book e title author publisher price publish_date
                               isbn cover_url f) = -1 \/
     1 <= snd (Database.create_book e title author publisher price
                                    publish_date isbn cover_url f)).
Proof.
  intros e f skip limit book_id title author publisher price publish_date
         isbn cover_url f0 no_conn.
  pose proof (negative_on_exception e f skip limit book_id title author
                publisher price publish_date isbn cover_url)
    as (Hlist & Hget & Hcreate & Hupdate & Hdelete).
  split; [|split].
  - intros Hcause.
    assert (forall s, no_conn \/ raises (execute e f0 s)) as Hraise
      by (intros s; now apply failure_raises).
    repeat split.
    + apply Hlist. unfold Database.get_all_books_try.
      destruct (Hraise (SelectPage limit skip)) as [H | [x H]]; [now left|].
      right. exists x. fold f0. now rewrite H.
    + apply Hget. unfold Database.get_book_by_id_try.
      destruct (Hraise (SelectById book_id)) as [H | [x H]]; [now left|].
      right. exists x. fold f0. now rewrite H.
    + apply Hcreate. unfold Database.create_book_try.
      destruct (Hraise (InsertBook title author publisher price publish_date
                                   isbn cover_url)) as [H | [x H]];
        [now left|].
      right. exists x. fold f0. now rewrite H.
    + apply Hupdate. unfold Database.update_book_try.
      destruct (Hraise (UpdateBook title author publisher price publish_date
                                   isbn cover_url book_id)) as [H | [x H]];
        [now left|].
      right. exists x. fold f0. now rewrite H.
    + apply Hdelete. unfold Database.delete_book_try.
      destruct (Hraise (DeleteBook book_id)) as [H | [x H]]; [now left|].
      right. exists x. fold f0. now rewrite H.
    + apply connection_keeps_rows.
  - repeat split; assumption.
  - destruct (create_book_cases e title author publisher price publish_date
                isbn cover_url f)
      as [-> | (ti & au & -> & -> & He & Hf & Hp & Hmax)]; [now left|].
    right.
    rewrite (create_book_ok e ti au publisher price publish_date isbn
               cover_url f He Hf Hp Hmax).
    simpl. pose proof (max_rowid_nonneg (Client.stored f)). lia.
Qed.

Lemma failures_degrade_to_negative_results_witness :
  Database.get_all_books Sample.unreachable 0 (-1) Sample.five_books
    = (Sample.five_books, []) /\
  Database.get_book_by_id Sample.failing 1 Sample.five_books
    = (Sample.five_books, None) /\
  Database.create_book Sample.failing (Some "A"%string) (Some "B"%string)
                       None 100 None None None Sample.five_books
    = (Sample.five_books, -1) /\
  Database.create_book Sample.fine None (Some "B"%string) None 100 None None
                       None Sample.five_books
    = (Sample.five_books, -1).
Proof.
  pose proof (failures_degrade_to_negative_results Sample.unreachable
                Sample.five_books 0 (-1) 1 (Some "A"%string)
                (Some "B"%string) None 100 None None None) as (H1 & _ & _).
  pose proof (failures_degrade_to_negative_results Sample.failing
                Sample.five_books 0 (-1) 1 (Some "A"%string)
                (Some "B"%string) None 100 None None None) as (H2 & _ & _).
  pose proof (failures_degrade_to_negative_results Sample.fine
                Sample.five_books 0 (-1) 1 None
                (Some "B"%string) None 100 None None None)
    as (_ & (_ & _ & H3 & _) & _).
  destruct H1 as (Hlist & _); [left; discriminate|].
  destruct H2 as (_ & Hget & Hcreate & _); [left; discriminate|].
  split; [exact Hlist|]. split; [exact Hget|]. split; [exact Hcreate|].
  apply H3. right. exists IntegrityError. reflexivity.
Defined.

(** ** Rowids over the lifetime of a store *)

Section Lifetime.
Import Database Client.

Lemma ascending_app_last (l : list Row.t) (r : Row.t) :
  ids_ascending l -> Forall (fun x => Row.id x < Row.id r) l ->
  ids_ascending (l ++ [r]).
Proof.
  unfold ids_ascending. induction 1 as [|x xs Hs IH Hall]; intros Hlt; simpl.
  - repeat constructor.
  - inversion Hlt as [|? ? Hx Hxs]; subst. constructor.
    + now apply IH.
    + apply Forall_app. split; [exact Hall|]. now constructor.
Qed.

Lemma ascending_map (g : Row.t -> Row.t) (l : list Row.t) :
  (forall r, Row.id (g r) = Row.id r) ->
  ids_ascending l -> ids_ascending (map g l).
Proof.
  unfold ids_ascending. intros Hg.
  induction 1 as [|x xs Hs IH Hall]; simpl; constructor; [exact IH|].
  apply Forall_map. eapply Forall_impl; [|exact Hall].
  simpl. intros y Hy. now rewrite !Hg.
Qed.

Lemma ascending_filter (p : Row.t -> bool) (l : list Row.t) :
  ids_ascending l -> ids_ascending (filter p l).
Proof.
  unfold ids_ascending.
  induction 1 as [|x xs Hs IH Hall]; simpl; [constructor|].
  destruct (p x); [|exact IH]. constructor; [exact IH|].
  rewrite Forall_forall in *. intros y Hy. apply Hall.
  now apply filter_In in Hy.
Qed.

Lemma wf_file_ids (f : File) :
  wf_file f ->
  Forall (fun r => 1 <= Row.id r <= high_water f) (stored f) /\
  0 <= high_water f <= INT64_MAX.
Proof.
  destruct f as [| |t]; simpl.
  - intros _. split; [constructor|]. unfold INT64_MAX. lia.
  - intros _. split; [constructor|]. unfold INT64_MAX. lia.
  - intros (_ & H1 & H2). now split.
Qed.

Lemma connection_wf (e : Env) (f : File) :
  wf_file f -> wf_file (fst (get_db_connection e f)).
Proof.
  destruct f as [| |t].
  - rewrite connection_bootstrap. intros _.
    destruct (fault e); simpl; auto.
    unfold wf_table, ids_ascending. simpl.
    repeat split; try constructor; unfold INT64_MAX; lia.
  - now rewrite connection_on_empty_file.
  - now rewrite connection_on_table.
Qed.

(** One call: the invariant is kept, the rowid counter never goes down, and
    a successful create returns the new value of the counter, above the old
    one. *)
Lemma perform_keeps_counter (e : Env) (c : Call) (f : File) :
  wf_file f ->
  wf_file (fst (perform e c f)) /\
  high_water f <= high_water (fst (perform e c f)) /\
  forall i, snd (perform e c f) = Created i -> i <> -1 ->
            high_water f < i /\ i = high_water (fst (perform e c f)).
Proof.
  intros Hwf.
  pose proof (connection_wf e f Hwf) as Hwf0.
  pose proof (connection_keeps_rows e f) as [Hrows0 Hhw0].
  pose proof (wf_file_ids f Hwf) as [Hids Hseq].
  pose proof (max_rowid_nonneg (stored f)) as Hmaxrow.
  destruct c as [skip limit | book_id
                | title author publisher price publish_date isbn cover_url
                | book_id title author publisher price publish_date isbn
                  cover_url
                | book_id]; simpl.
  - rewrite get_all_books_eq. simpl.
    split; [exact Hwf0|]. split; [lia|]. intros i Hi. discriminate.
  - rewrite get_book_by_id_eq. simpl.
    split; [exact Hwf0|]. split; [lia|]. intros i Hi. discriminate.
  - destruct (create_book e title author publisher price publish_date isbn
                cover_url f) as [f' new_id] eqn:Hc. simpl.
    destruct (Z.eq_dec new_id (-1)) as [Hneg | Hpos].
    + destruct (create_book_cases e title author publisher price publish_date
                  isbn cover_url f)
        as [Hfail | (ti & au & -> & -> & He & Hf & Hp & Hmax)].
      * rewrite Hfail in Hc. inversion Hc; subst.
        split; [exact Hwf0|]. split; [lia|].
        intros i Hi Hne. inversion Hi. congruence.
      * rewrite (create_book_ok e ti au publisher price publish_date isbn
                   cover_url f He Hf Hp Hmax) in Hc.
        inversion Hc. lia.
    + destruct (create_book_appends _ _ _ _ _ _ _ _ _ _ _ Hc Hpos)
        as (ti & au & _ & _ & Hnew & Hmax & ->).
      assert (Forall (fun x => Row.id x < new_id) (stored f)) as Hbelow.
      { eapply Forall_impl; [|exact Hids]. simpl. intros; lia. }
      simpl. split; [|split].
      * unfold wf_table. simpl. split; [|split].
        -- now apply ascending_app_last; [apply wf_file_ascending|].
        -- apply Forall_app. split.
           ++ eapply Forall_impl; [|exact Hids]. simpl. intros; lia.
           ++ constructor; [|constructor]. simpl. lia.
        -- lia.
      * lia.
      * intros i Hi Hne. inversion Hi; subst. split; [lia|reflexivity].
  - destruct (update_book_cases e book_id title author publisher price
                publish_date isbn cover_url f)
      as [-> | (ti & au & _ & _ & _ & _ & _ & _ & ->)]; simpl.
    + split; [exact Hwf0|]. split; [lia|]. intros i Hi. discriminate.
    + split; [|split; [lia|intros i Hi; discriminate]].
      unfold wf_table. simpl. split; [|split; [|exact Hseq]].
      * apply ascending_map; [|now apply wf_file_ascending].
        intros r. now destruct (has_id book_id r).
      * apply Forall_map. eapply Forall_impl; [|exact Hids].
        simpl. intros r Hr. now destruct (has_id book_id r).
  - destruct (delete_book_cases e book_id f) as [-> | (_ & _ & _ & ->)]; simpl.
    + split; [exact Hwf0|]. split; [lia|]. intros i Hi. discriminate.
    + split; [|split; [lia|intros i Hi; discriminate]].
      unfold wf_table. simpl. split; [|split; [|exact Hseq]].
      * now apply ascending_filter, wf_file_ascending.
      * apply Forall_forall. intros r Hr. apply filter_In in Hr.
        rewrite Forall_forall in Hids. now apply Hids.
Qed.

(** A history: the same, call after call. *)
Lemma run_keeps_counter (h : list (Env * Call)) :
  forall f, wf_file f ->
    wf_file (fst (run h f)) /\
    high_water f <= high_water (fst (run h f)) /\
    StronglySorted Z.lt (created_ids (snd (run h f))) /\
    Forall (fun i => high_water f < i <= high_water (fst (run h f)))
           (created_ids (snd (run h f))).
Proof.
  induction h as [|[e c] h IH]; intros f Hwf; simpl.
  - repeat split; try assumption; try lia; constructor.
  - destruct (perform_keeps_counter e c f Hwf) as (Hwf1 & Hmono & Hnew).
    destruct (perform e c f) as [f1 a]. simpl in *.
    destruct (IH f1 Hwf1) as (Hwf2 & Hmono2 & Hsorted & Hrange).
    destruct (run h f1) as [f2 answers]. simpl in *.
    assert (Forall (fun i => high_water f < i <= high_water f2)
                   (created_ids answers)) as Hrange'.
    { eapply Forall_impl; [|exact Hrange]. simpl. intros; lia. }
    repeat split; try assumption; try lia.
    + destruct a as [| |i| |]; try exact Hsorted.
      destruct (Z.eqb_spec i (-1)); [exact Hsorted|].
      destruct (Hnew i eq_refl n) as [_ ->].
      constructor; [exact Hsorted|].
      eapply Forall_impl; [|exact Hrange]. simpl. intros; lia.
    + destruct a as [| |i| |]; try exact Hrange'.
      destruct (Z.eqb_spec i (-1)); [exact Hrange'|].
      constructor; [|exact Hrange'].
      destruct (Hnew i eq_refl n). lia.
Qed.

Lemma ascending_NoDup (l : list Z) : StronglySorted Z.lt l -> NoDup l.
Proof.
  induction 1 as [|x xs Hs IH Hall]; constructor; [|exact IH].
  intros Hin. rewrite Forall_forall in Hall. specialize (Hall x Hin). lia.
Qed.

End Lifetime.

(** C6.  Take a store the engine has written, at any point [f1] of its life
    (after any history [h1]), and any further history [h2] of storage calls,
    healthy or failing.  The ids returned by the successful creates of [h2]
    are strictly increasing in the order of the calls, hence pairwise
    distinct, and each is at least 1 and greater than the id of every row
    the store held at [f1], whether or not that row has been deleted in the
    meantime. *)
Theorem created_ids_increase_and_are_never_reused :
  forall (h1 h2 : list (Env * Client.Call)) (f : File),
    Client.wf_file f ->
    let f1 := fst (Client.run h1 f) in
    let ids := Client.created_ids (snd (Client.run h2 f1)) in
    StronglySorted Z.lt ids /\
    NoDup ids /\
    Forall (fun i => 1 <= i /\
                     Forall (fun r => Row.id r < i) (Client.stored f1))
           ids.
Proof.
  intros h1 h2 f Hwf f1 ids.
  destruct (run_keeps_counter h1 f Hwf) as (Hwf1 & _).
  fold f1 in Hwf1.
  destruct (run_keeps_counter h2 f1 Hwf1) as (_ & _ & Hsorted & Hrange).
  fold ids in Hsorted, Hrange.
  destruct (wf_file_ids f1 Hwf1) as [Hids Hseq].
  split; [exact Hsorted|]. split; [now apply ascending_NoDup|].
  eapply Forall_impl; [|exact Hrange]. simpl. intros i Hi.
  split; [lia|].
  eapply Forall_impl; [|exact Hids]. simpl. intros; lia.
Qed.

Lemma created_ids_increase_and_are_never_reused_witness :
  let ids :=
    Client.created_ids
      (snd (Client.run Sample.second_day
              (fst (Client.run Sample.first_day Absent)))) in
  ids = [2; 3] /\ StronglySorted Z.lt ids /\ NoDup ids /\
  Client.stored (fst (Client.run Sample.first_day Absent))
    = [Sample.book 1 "A"].
Proof.
  intros ids.
  destruct (created_ids_increase_and_are_never_reused
              Sample.first_day Sample.second_day Absent I)
    as (Hsorted & Hnodup & _).
  split; [reflexivity|]. split; [exact Hsorted|]. split; [exact Hnodup|].
  reflexivity.
Defined.

(** * Further properties of the storage functions and the routes *)

Section Lookup.
Import Database Client.

Lemma filter_has_id_above (i : Z) (l : list Row.t) :
  Forall (fun x => i < Row.id x) l -> filter (has_id i) l = [].
Proof.
  induction 1 as [|x xs Hx _ IH]; simpl; [reflexivity|].
  unfold has_id at 1. destruct (Z.eqb_spec (Row.id x) i); [lia|exact IH].
Qed.

Lemma filter_has_id_not_stored (i : Z) (l : list Row.t) :
  Forall (fun x => Row.id x <> i) l -> filter (has_id i) l = [].
Proof.
  induction 1 as [|x xs Hx _ IH]; simpl; [reflexivity|].
  unfold has_id at 1. destruct (Z.eqb_spec (Row.id x) i); [contradiction|exact IH].
Qed.

Lemma filter_has_id_nil_not_stored (i : Z) (l : list Row.t) :
  filter (has_id i) l = [] -> Forall (fun x => Row.id x <> i) l.
Proof.
  induction l as [|x xs IH]; simpl; [constructor|].
  unfold has_id at 1. destruct (Z.eqb_spec (Row.id x) i); [discriminate|].
  intros H. constructor; [assumption|now apply IH].
Qed.

(** In a table with ascending ids a row is the only one with its id. *)
Lemma ascending_lookup (l : list Row.t) (r : Row.t) :
  ids_ascending l -> In r l -> filter (has_id (Row.id r)) l = [r].
Proof.
  unfold ids_ascending. induction 1 as [|x xs Hs IH Hall]; intros Hin.
  - contradiction.
  - simpl. destruct Hin as [-> | Hin].
    + unfold has_id at 1. rewrite Z.eqb_refl.
      now rewrite (filter_has_id_above _ _ Hall).
    + rewrite Forall_forall in Hall. specialize (Hall r Hin).
      unfold has_id at 1. destruct (Z.eqb_spec (Row.id x) (Row.id r)); [lia|].
      now apply IH.
Qed.

Lemma wf_file_fits (f : File) (r : Row.t) :
  wf_file f -> In r (stored f) -> fits_int64 (Row.id r) = true.
Proof.
  intros Hwf Hin. destruct (wf_file_ids f Hwf) as [Hids Hseq].
  rewrite Forall_forall in Hids. specialize (Hids r Hin).
  apply fits_int64_spec. unfold INT64_MIN. lia.
Qed.

Lemma stored_in_table (f : File) (r : Row.t) :
  In r (stored f) -> exists t, f = Books t.
Proof.
  destruct f as [| |t]; simpl; try contradiction. eauto.
Qed.

(** What a healthy [get_book_by_id] finds in any file. *)
Lemma get_book_by_id_healthy (e : Env) (book_id : Z) (f : File) :
  fault e = NoFault -> fits_int64 book_id = true ->
  snd (get_book_by_id e book_id f)
  = hd_error (filter (has_id book_id) (stored f)).
Proof.
  intros He Hi. apply healthy_true in He.
  rewrite get_book_by_id_eq. simpl. now rewrite He, Hi.
Qed.

Lemma get_book_by_id_not_stored (e : Env) (book_id : Z) (f : File) :
  Observe.not_stored book_id f -> snd (get_book_by_id e book_id f) = None.
Proof.
  intros H. rewrite get_book_by_id_eq. simpl.
  rewrite (filter_has_id_not_stored _ _ H).
  now destruct (healthy e && fits_int64 book_id).
Qed.

Lemma get_book_by_id_stored (e : Env) (f : File) (r : Row.t) :
  wf_file f -> In r (stored f) -> fault e = NoFault ->
  get_book_by_id e (Row.id r) f = (f, Some r).
Proof.
  intros Hwf Hin He.
  pose proof (wf_file_fits f r Hwf Hin) as Hfit.
  destruct (stored_in_table f r Hin) as [t ->].
  rewrite get_book_by_id_on_table by assumption.
  rewrite (ascending_lookup (rows t) r); [reflexivity| |exact Hin].
  apply (wf_file_ascending (Books t) Hwf).
Qed.

End Lookup.

(** X1.  The two read functions never change what is stored: after
    [get_all_books] and after [get_book_by_id], in any environment and with
    any arguments, the file holds the same rows and the same rowid counter,
    and a file that has its table is the very same file. *)
Theorem reads_leave_the_store_alone :
  forall (e : Env) (skip limit book_id : Z) (f : File) (t : Table),
    Client.stored (fst (Database.get_all_books e skip limit f))
      = Client.stored f /\
    Client.high_water (fst (Database.get_all_books e skip limit f))
      = Client.high_water f /\
    Client.stored (fst (Database.get_book_by_id e book_id f))
      = Client.stored f /\
    Client.high_water (fst (Database.get_book_by_id e book_id f))
      = Client.high_water f /\
    fst (Database.get_all_books e skip limit (Books t)) = Books t /\
    fst (Database.get_book_by_id e book_id (Books t)) = Books t.
Proof.
  intros e skip limit book_id f t.
  rewrite !get_all_books_eq, !get_book_by_id_eq. simpl.
  destruct (connection_keeps_rows e f) as [Hrows Hhw].
  rewrite connection_on_table. simpl. repeat split; assumption.
Qed.

(** X2.  A file that exists without a [books] table is never repaired: the
    table is only created when the file is missing.  Whatever storage calls
    follow, in whatever environment, each returns its negative result and
    the file stays without table. *)
Theorem missing_table_is_never_repaired :
  forall (h : list (Env * Client.Call)),
    fst (Client.run h NoTable) = NoTable /\
    forallb Observe.negative (snd (Client.run h NoTable)) = true.
Proof.
  induction h as [|[e c] h [IHf IHa]]; simpl; [split; reflexivity|].
  assert (exists a, Client.perform e c NoTable = (NoTable, a) /\
                    Observe.negative a = true) as (a & Hp & Hneg).
  { destruct c; simpl;
      unfold Database.get_all_books, Database.get_book_by_id,
        Database.create_book, Database.update_book, Database.delete_book;
      rewrite connection_on_empty_file;
      destruct (fault e); simpl; eexists; split; reflexivity. }
  rewrite Hp.
  destruct (Client.run h NoTable) as [f2 answers]. simpl in *.
  split; [exact IHf|]. now rewrite Hneg, IHa.
Qed.

(** X3.  On a store the engine has written, a healthy [get_book_by_id] of
    the id of a stored row returns exactly that row and leaves the file as
    it is; for an id that no stored row has it returns [None], in any
    environment. *)
Theorem get_finds_exactly_the_stored_row :
  forall (e : Env) (f : File),
    Client.wf_file f ->
    (forall r, In r (Client.stored f) -> fault e = NoFault ->
               Database.get_book_by_id e (Row.id r) f = (f, Some r)) /\
    (forall i, Observe.not_stored i f ->
               snd (Database.get_book_by_id e i f) = None).
Proof.
  intros e f Hwf. split.
  - intros r Hin He. now apply get_book_by_id_stored.
  - intros i Hi. now apply get_book_by_id_not_stored.
Qed.

Lemma sample_five_books_wf : Client.wf_file Sample.five_books.
Proof.
  simpl. unfold Client.wf_table, Client.ids_ascending. simpl.
  split; [|split].
  - repeat (constructor; [|repeat constructor; simpl; lia]). constructor.
  - repeat constructor; simpl; lia.
  - unfold INT64_MAX. lia.
Qed.

Lemma get_finds_exactly_the_stored_row_witness :
  Database.get_book_by_id Sample.fine 4 Sample.five_books
    = (Sample.five_books, Some (Sample.book 4 "D")) /\
  snd (Database.get_book_by_id Sample.fine 3 Sample.five_books) = None.
Proof.
  destruct (get_finds_exactly_the_stored_row Sample.fine Sample.five_books
              sample_five_books_wf) as [Hfound Hnone].
  split.
  - apply (Hfound (Sample.book 4 "D")); [simpl; auto | reflexivity].
  - apply Hnone. unfold Observe.not_stored. simpl.
    repeat constructor; simpl; lia.
Defined.

(** ** Writes that do not find their row *)

Section Misses.
Import Database Client.

Lemma update_book_not_stored (e : Env) (book_id : Z)
    (title author publisher : option string) (price : Z)
    (publish_date isbn cover_url : option string) (f : File) :
  Observe.not_stored book_id f ->
  update_book e book_id title author publisher price publish_date isbn
              cover_url f = (fst (get_db_connection e f), false).
Proof.
  intros Hno.
  destruct (update_book_cases e book_id title author publisher price
              publish_date isbn cover_url f)
    as [H | (ti & au & _ & _ & _ & _ & _ & Hhit & _)]; [exact H|].
  exfalso. apply Hhit. now apply filter_has_id_not_stored.
Qed.

Lemma delete_book_not_stored (e : Env) (book_id : Z) (f : File) :
  Observe.not_stored book_id f ->
  delete_book e book_id f = (fst (get_db_connection e f), false).
Proof.
  intros Hno.
  destruct (delete_book_cases e book_id f) as [H | (_ & _ & Hhit & _)];
    [exact H|].
  exfalso. apply Hhit. now apply filter_has_id_not_stored.
Qed.

End Misses.

(** X4.  [update_book] of an id that no stored row has returns [False] and
    leaves the rows and the rowid counter as they were, whatever the new
    values are (a missing title included) and in any environment; the route
    [PUT /books/{id}] then answers 404 "Book not found" for every body that
    validates. *)
Theorem update_of_unknown_id_changes_nothing :
  forall (e e2 : Env) (book_id : Z) (title author publisher : option string)
         (price : Z) (publish_date isbn cover_url : option string)
         (body : Models.Payload) (f : File),
    Observe.not_stored book_id f ->
    snd (Database.update_book e book_id title author publisher price
                              publish_date isbn cover_url f) = false /\
    Client.stored (fst (Database.update_book e book_id title author publisher
                          price publish_date isbn cover_url f))
      = Client.stored f /\
    Client.high_water (fst (Database.update_book e book_id title author
                              publisher price publish_date isbn cover_url f))
      = Client.high_water f /\
    (Models.model_validate body <> None ->
     Main.response (Main.PUT_books e e2 book_id body f)
       = Main.HTTPException 404 "Book not found" /\
     Client.stored (Main.file (Main.PUT_books e e2 book_id body f))
       = Client.stored f).
Proof.
  intros e e2 book_id title author publisher price publish_date isbn
         cover_url body f Hno.
  destruct (connection_keeps_rows e f) as [Hrows Hhw].
  rewrite update_book_not_stored by exact Hno. simpl.
  repeat split; try assumption.
  - unfold Main.PUT_books.
    destruct (Models.model_validate body) as [book|]; [|congruence].
    unfold Main.update_book.
    rewrite update_book_not_stored by exact Hno. reflexivity.
  - unfold Main.PUT_books.
    destruct (Models.model_validate body) as [book|]; [|congruence].
    unfold Main.update_book.
    rewrite update_book_not_stored by exact Hno. exact Hrows.
Qed.

Lemma update_of_unknown_id_changes_nothing_witness :
  snd (Database.update_book Sample.fine 3 None None None 5 None None None
                            Sample.five_books) = false /\
  Main.response (Main.PUT_books Sample.fine Sample.fine 3 Sample.body_A
                                Sample.five_books)
    = Main.HTTPException 404 "Book not found".
Proof.
  assert (Observe.not_stored 3 Sample.five_books) as Hno
    by (unfold Observe.not_stored; simpl; repeat constructor; simpl; lia).
  destruct (update_of_unknown_id_changes_nothing Sample.fine Sample.fine 3
              None None None 5 None None None Sample.body_A
              Sample.five_books Hno) as (Hfalse & _ & _ & Hput).
  split; [exact Hfalse|].
  apply Hput. discriminate.
Defined.

(** X5.  [delete_book] of an id that no stored row has returns [False] and
    leaves the rows and the rowid counter as they were, in any environment;
    the route [DELETE /books/{id}] then answers 404 "Book not found". *)
Theorem delete_of_unknown_id_changes_nothing :
  forall (e : Env) (book_id : Z) (f : File),
    Observe.not_stored book_id f ->
    snd (Database.delete_book e book_id f) = false /\
    Client.stored (fst (Database.delete_book e book_id f)) = Client.stored f /\
    Client.high_water (fst (Database.delete_book e book_id f))
      = Client.high_water f /\
    Main.response (Main.delete_book e book_id f)
      = Main.HTTPException 404 "Book not found".
Proof.
  intros e book_id f Hno.
  destruct (connection_keeps_rows e f) as [Hrows Hhw].
  unfold Main.delete_book.
  rewrite delete_book_not_stored by exact Hno. simpl.
  repeat split; assumption.
Qed.

Lemma delete_of_unknown_id_changes_nothing_witness :
  snd (Database.delete_book Sample.fine 3 Sample.five_books) = false /\
  Main.response (Main.delete_book Sample.fine 3 Sample.five_books)
    = Main.HTTPException 404 "Book not found".
Proof.
  assert (Observe.not_stored 3 Sample.five_books) as Hno
    by (unfold Observe.not_stored; simpl; repeat constructor; simpl; lia).
  destruct (delete_of_unknown_id_changes_nothing Sample.fine 3
              Sample.five_books Hno) as (Hfalse & _ & _ & Hroute).
  split; assumption.
Defined.

(** ** Writes touch one row *)

Section Frames.
Import Database Client.

Lemma filter_other_id_updated (i j : Z) (g : Row.t -> Row.t) (l : list Row.t) :
  j <> i -> (forall r, Row.id (g r) = Row.id r) ->
  filter (has_id j) (map (fun r => if has_id i r then g r else r) l)
  = filter (has_id j) l.
Proof.
  intros Hji Hg. induction l as [|x xs IH]; simpl; [reflexivity|].
  rewrite IH. destruct (has_id i x) eqn:Ei; [|reflexivity].
  unfold has_id in *. rewrite Hg. apply Z.eqb_eq in Ei.
  destruct (Z.eqb_spec (Row.id x) j); [lia|reflexivity].
Qed.

Lemma filter_other_id_deleted (i j : Z) (l : list Row.t) :
  j <> i ->
  filter (has_id j) (filter (fun r => negb (has_id i r)) l)
  = filter (has_id j) l.
Proof.
  intros Hji. induction l as [|x xs IH]; simpl; [reflexivity|].
  destruct (has_id i x) eqn:Ei; simpl; rewrite IH; [|reflexivity].
  unfold has_id in *. apply Z.eqb_eq in Ei.
  destruct (Z.eqb_spec (Row.id x) j); [lia|reflexivity].
Qed.

Lemma filter_other_id_appended (j : Z) (r : Row.t) (l : list Row.t) :
  j <> Row.id r -> filter (has_id j) (l ++ [r]) = filter (has_id j) l.
Proof.
  intros Hj. rewrite filter_app. simpl. unfold has_id at 2.
  destruct (Z.eqb_spec (Row.id r) j); [lia|apply app_nil_r].
Qed.

(** Two files with the same rows for an id answer a get of it alike. *)
Lemma get_book_by_id_same_rows (e : Env) (j : Z) (f f' : File) :
  filter (has_id j) (stored f') = filter (has_id j) (stored f) ->
  snd (get_book_by_id e j f') = snd (get_book_by_id e j f).
Proof.
  intros H. rewrite !get_book_by_id_eq. simpl. now rewrite H.
Qed.

Lemma max_rowid_le (m : Z) (l : list Row.t) :
  0 <= m -> Forall (fun r => Row.id r <= m) l -> max_rowid l <= m.
Proof.
  intros Hm. induction 1 as [|x xs Hx _ IH]; simpl; lia.
Qed.

(** On a well-formed file the next rowid is the counter plus one. *)
Lemma wf_next_rowid (f : File) :
  wf_file f -> Z.max (high_water f) (max_rowid (stored f)) = high_water f.
Proof.
  intros Hwf. destruct (wf_file_ids f Hwf) as [Hids Hseq].
  assert (max_rowid (stored f) <= high_water f).
  { apply max_rowid_le; [lia|].
    eapply Forall_impl; [|exact Hids]. simpl. intros; lia. }
  lia.
Qed.

End Frames.

(** X6.  A successful [update_book] touches one id only: the number of rows
    and the rowid counter stay, a get of any other id answers as before,
    and the updated row keeps its [id] and its [created_at]. *)
Theorem update_touches_one_row :
  forall (e e' : Env) (book_id : Z) (title author publisher : option string)
         (price : Z) (publish_date isbn cover_url : option string)
         (f f' : File),
    Database.update_book e book_id title author publisher price publish_date
                         isbn cover_url f = (f', true) ->
    fault e' = NoFault ->
    List.length (Client.stored f') = List.length (Client.stored f) /\
    Client.high_water f' = Client.high_water f /\
    (forall j, j <> book_id ->
       snd (Database.get_book_by_id e' j f')
       = snd (Database.get_book_by_id e' j f)) /\
    exists old new,
      snd (Database.get_book_by_id e' book_id f) = Some old /\
      snd (Database.get_book_by_id e' book_id f') = Some new /\
      Row.id new = Row.id old /\
      Row.created_at new = Row.created_at old.
Proof.
  intros e e' book_id title author publisher price publish_date isbn
         cover_url f f' Hu He'.
  destruct (update_book_cases e book_id title author publisher price
              publish_date isbn cover_url f)
    as [Hfail | (ti & au & _ & _ & He & Hp & Hi & Hhit & Hok)].
  - rewrite Hfail in Hu. inversion Hu.
  - rewrite Hok in Hu. inversion Hu as [Hf']. clear Hu. simpl.
    split; [apply length_map|]. split; [reflexivity|]. split.
    + intros j Hj. apply get_book_by_id_same_rows. simpl.
      now apply filter_other_id_updated.
    + rewrite !get_book_by_id_healthy by assumption. simpl.
      rewrite filter_has_id_updated by reflexivity.
      destruct (filter (has_id book_id) (Client.stored f)) as [|old rest];
        [congruence|].
      simpl. eexists. eexists. repeat split.
Qed.

Lemma update_touches_one_row_witness :
  List.length
    (Client.stored
       (fst (Database.update_book Sample.fine 4 (Some "T"%string)
               (Some "U"%string) None 7 None None None Sample.five_books)))
    = 5%nat /\
  snd (Database.get_book_by_id Sample.fine 5
         (fst (Database.update_book Sample.fine 4 (Some "T"%string)
                 (Some "U"%string) None 7 None None None Sample.five_books)))
    = Some (Sample.book 5 "E").
Proof.
  destruct (update_touches_one_row Sample.fine Sample.fine 4
              (Some "T"%string) (Some "U"%string) None 7 None None None
              Sample.five_books
              (fst (Database.update_book Sample.fine 4 (Some "T"%string)
                      (Some "U"%string) None 7 None None None
                      Sample.five_books))
              eq_refl eq_refl) as (Hlen & _ & Hother & _).
  split; [exact Hlen|].
  rewrite (Hother 5); [reflexivity|lia].
Defined.

(** X7.  On a store the engine has written, a successful [delete_book]
    removes exactly one row: the number of rows goes down by one, the rowid
    counter stays (so the id is not handed out again), a get of any other
    id answers as before, and the store is still well formed. *)
Theorem delete_removes_one_row :
  forall (e e' : Env) (book_id : Z) (f f' : File),
    Client.wf_file f ->
    Database.delete_book e book_id f = (f', true) ->
    S (List.length (Client.stored f')) = List.length (Client.stored f) /\
    Client.high_water f' = Client.high_water f /\
    (forall j, j <> book_id ->
       snd (Database.get_book_by_id e' j f')
       = snd (Database.get_book_by_id e' j f)) /\
    Client.wf_file f'.
Proof.
  intros e e' book_id f f' Hwf Hd.
  pose proof (perform_keeps_counter e (Client.DeleteBook book_id) f Hwf)
    as (Hwf' & _). simpl in Hwf'. rewrite Hd in Hwf'. simpl in Hwf'.
  destruct (delete_book_cases e book_id f) as [Hfail | (He & Hi & Hhit & Hok)].
  - rewrite Hfail in Hd. inversion Hd.
  - rewrite Hok in Hd. inversion Hd as [Hf']. clear Hd. subst f'. simpl.
    split; [|split; [reflexivity|split; [|exact Hwf']]].
    + rewrite <- (filter_length (has_id book_id) (Client.stored f)).
      destruct (filter (has_id book_id) (Client.stored f)) as [|r rest] eqn:E;
        [congruence|].
      assert (In r (filter (has_id book_id) (Client.stored f))) as Hin
        by (rewrite E; now left).
      apply filter_In in Hin. destruct Hin as [Hin Hid].
      unfold has_id in Hid. apply Z.eqb_eq in Hid. subst book_id.
      rewrite (ascending_lookup _ r (wf_file_ascending f Hwf) Hin) in E.
      inversion E. reflexivity.
    + intros j Hj. apply get_book_by_id_same_rows. simpl.
      now apply filter_other_id_deleted.
Qed.

Lemma delete_removes_one_row_witness :
  S (List.length
       (Client.stored
          (fst (Database.delete_book Sample.fine 4 Sample.five_books))))
    = 5%nat /\
  Client.high_water
    (fst (Database.delete_book Sample.fine 4 Sample.five_books)) = 7.
Proof.
  destruct (delete_removes_one_row Sample.fine Sample.fine 4
              Sample.five_books
              (fst (Database.delete_book Sample.fine 4 Sample.five_books))
              sample_five_books_wf eq_refl) as (Hlen & Hhw & _).
  split; assumption.
Defined.

(** X8.  On a store the engine has written, a successful [create_book]
    returns the rowid counter plus one (1 on a new store) and makes it the
    new counter; it adds exactly one row, stamped with the store's clock,
    after the stored ones, and a get of any other id answers as before. *)
Theorem create_adds_one_row :
  forall (e e' : Env) (title author publisher : option string) (price : Z)
         (publish_date isbn cover_url : option string) (f f' : File)
         (new_id : Z),
    Client.wf_file f ->
    Database.create_book e title author publisher price publish_date isbn
                         cover_url f = (f', new_id) ->
    new_id <> -1 ->
    new_id = Client.high_water f + 1 /\
    Client.high_water f' = new_id /\
    (exists r, Client.stored f' = Client.stored f ++ [r] /\
               Row.id r = new_id /\ Row.created_at r = now e) /\
    (forall j, j <> new_id ->
       snd (Database.get_book_by_id e' j f')
       = snd (Database.get_book_by_id e' j f)).
Proof.
  intros e e' title author publisher price publish_date isbn cover_url f f'
         new_id Hwf Hc Hid.
  destruct (create_book_appends _ _ _ _ _ _ _ _ _ _ _ Hc Hid)
    as (ti & au & _ & _ & Hnew & _ & ->).
  rewrite (wf_next_rowid f Hwf) in Hnew. simpl.
  split; [exact Hnew|]. split; [reflexivity|]. split.
  - eexists. repeat split.
  - intros j Hj. apply get_book_by_id_same_rows. simpl.
    now apply filter_other_id_appended.
Qed.

Lemma create_adds_one_row_witness :
  snd (Database.create_book Sample.fine (Some "A"%string) (Some "B"%string)
         None 100 None None None Absent) = 1 /\
  snd (Database.create_book Sample.fine (Some "A"%string) (Some "B"%string)
         None 100 None None None Sample.five_books) = 8.
Proof.
  destruct (create_adds_one_row Sample.fine Sample.fine (Some "A"%string)
              (Some "B"%string) None 100 None None None Absent
              (fst (Database.create_book Sample.fine (Some "A"%string)
                      (Some "B"%string) None 100 None None None Absent))
              (snd (Database.create_book Sample.fine (Some "A"%string)
                      (Some "B"%string) None 100 None None None Absent))
              I eq_refl ltac:(vm_compute; discriminate)) as (Hid1 & _).
  destruct (create_adds_one_row Sample.fine Sample.fine (Some "A"%string)
              (Some "B"%string) None 100 None None None Sample.five_books
              (fst (Database.create_book Sample.fine (Some "A"%string)
                      (Some "B"%string) None 100 None None None
                      Sample.five_books))
              (snd (Database.create_book Sample.fine (Some "A"%string)
                      (Some "B"%string) None 100 None None None
                      Sample.five_books))
              sample_five_books_wf eq_refl ltac:(vm_compute; discriminate))
    as (Hid8 & _).
  split; [exact Hid1 | exact Hid8].
Defined.

(** ** The routes on one book *)

Section Routes.
Import Database Client.

(** A healthy [delete_book] of a stored id goes through. *)
Lemma delete_book_stored (e : Env) (f : File) (r : Row.t) :
  wf_file f -> In r (stored f) -> fault e = NoFault ->
  delete_book e (Row.id r) f
  = (Books (mkTable
              (filter (fun x => negb (has_id (Row.id r) x)) (stored f))
              (high_water f)),
     true).
Proof.
  intros Hwf Hin He.
  pose proof (wf_file_fits f r Hwf Hin) as Hfit.
  destruct (delete_book_cases e (Row.id r) f) as [Hfail | (_ & _ & _ & Hok)];
    [|exact Hok].
  exfalso. destruct (stored_in_table f r Hin) as [t ->].
  revert Hfail. unfold delete_book, delete_book_try, execute.
  rewrite connection_on_table, He. simpl. rewrite Hfit. simpl.
  rewrite rowcount_positive.
  rewrite (ascending_lookup (rows t) r (wf_file_ascending (Books t) Hwf) Hin).
  simpl. discriminate.
Qed.

(** A call that is not healthy gets nothing from [get_book_by_id]. *)
Lemma get_book_by_id_faulty (e : Env) (book_id : Z) (f : File) :
  fault e <> NoFault -> snd (get_book_by_id e book_id f) = None.
Proof.
  intros He. rewrite get_book_by_id_eq. simpl.
  destruct (healthy e) eqn:E; [|reflexivity].
  apply healthy_true in E. contradiction.
Qed.

Lemma delete_book_faulty (e : Env) (book_id : Z) (f : File) :
  fault e <> NoFault ->
  delete_book e book_id f = (fst (get_db_connection e f), false).
Proof.
  intros He.
  destruct (delete_book_cases e book_id f) as [H | (Hok & _)];
    [exact H|contradiction].
Qed.

End Routes.

(** X9.  The route [GET /books/{book_id}] on a store the engine has
    written: for the id of a stored row and a healthy call it answers 200
    with exactly that row, after one storage call, and leaves the file as it
    is; for an id that no stored row has it answers 404 "Book not found";
    and when the call is not healthy it answers that same 404 also for a
    stored id. *)
Theorem get_book_route_answers :
  forall (e : Env) (f : File),
    Client.wf_file f ->
    (forall r, In r (Client.stored f) -> fault e = NoFault ->
       Main.get_book e (Row.id r) f
       = Main.mkHandled f [Client.GetBookById (Row.id r)]
                        (Main.Reply 200 (Main.BookJson r))) /\
    (forall i, Observe.not_stored i f ->
       Main.response (Main.get_book e i f)
       = Main.HTTPException 404 "Book not found") /\
    (forall i, fault e <> NoFault ->
       Main.response (Main.get_book e i f)
       = Main.HTTPException 404 "Book not found").
Proof.
  intros e f Hwf. split; [|split].
  - intros r Hin He. unfold Main.get_book.
    now rewrite (get_book_by_id_stored e f r Hwf Hin He).
  - intros i Hi. unfold Main.get_book.
    pose proof (get_book_by_id_not_stored e i f Hi) as H.
    destruct (Database.get_book_by_id e i f) as [f1 book]. simpl in H.
    now subst book.
  - intros i He. unfold Main.get_book.
    pose proof (get_book_by_id_faulty e i f He) as H.
    destruct (Database.get_book_by_id e i f) as [f1 book]. simpl in H.
    now subst book.
Qed.

Lemma get_book_route_answers_witness :
  Main.get_book Sample.fine 4 Sample.five_books
    = Main.mkHandled Sample.five_books [Client.GetBookById 4]
        (Main.Reply 200 (Main.BookJson (Sample.book 4 "D"))) /\
  Main.response (Main.get_book Sample.failing 4 Sample.five_books)
    = Main.HTTPException 404 "Book not found".
Proof.
  destruct (get_book_route_answers Sample.fine Sample.five_books
              sample_five_books_wf) as (Hfound & _).
  destruct (get_book_route_answers Sample.failing Sample.five_books
              sample_five_books_wf) as (_ & _ & Hfault).
  split.
  - apply (Hfound (Sample.book 4 "D")); [simpl; auto | reflexivity].
  - apply Hfault. discriminate.
Defined.

(** X10.  The route [DELETE /books/{book_id}] on a store the engine has
    written, for the id of a stored row: a healthy call answers 204 without
    body and no stored row has the id afterwards; a call that is not healthy
    answers 404 "Book not found" although the book exists, and the rows are
    as before. *)
Theorem delete_book_route_answers :
  forall (e : Env) (f : File) (r : Row.t),
    Client.wf_file f -> In r (Client.stored f) ->
    (fault e = NoFault ->
     Main.response (Main.delete_book e (Row.id r) f)
       = Main.Reply 204 Main.Empty /\
     Observe.not_stored (Row.id r)
       (Main.file (Main.delete_book e (Row.id r) f))) /\
    (fault e <> NoFault ->
     Main.response (Main.delete_book e (Row.id r) f)
       = Main.HTTPException 404 "Book not found" /\
     Client.stored (Main.file (Main.delete_book e (Row.id r) f))
       = Client.stored f).
Proof.
  intros e f r Hwf Hin. split.
  - intros He. unfold Main.delete_book.
    rewrite (delete_book_stored e f r Hwf Hin He). simpl.
    split; [reflexivity|].
    unfold Observe.not_stored. simpl.
    apply filter_has_id_nil_not_stored, filter_has_id_deleted.
  - intros He. unfold Main.delete_book.
    rewrite (delete_book_faulty e (Row.id r) f He). simpl.
    split; [reflexivity|apply connection_keeps_rows].
Qed.

Lemma delete_book_route_answers_witness :
  Main.response (Main.delete_book Sample.fine 4 Sample.five_books)
    = Main.Reply 204 Main.Empty /\
  Main.response (Main.delete_book Sample.unreachable 4 Sample.five_books)
    = Main.HTTPException 404 "Book not found".
Proof.
  assert (In (Sample.book 4 "D") (Client.stored Sample.five_books)) as Hin
    by (simpl; auto).
  destruct (delete_book_route_answers Sample.fine Sample.five_books
              (Sample.book 4 "D") sample_five_books_wf Hin) as (Hok & _).
  destruct (delete_book_route_answers Sample.unreachable Sample.five_books
              (Sample.book 4 "D") sample_five_books_wf Hin) as (_ & Hbad).
  split.
  - apply (Hok eq_refl).
  - apply Hbad. discriminate.
Defined.

(** X11.  The route [GET /books] never answers an error: in every
    environment and for every [skip] and [limit] it answers 200 with a list,
    after one storage call that leaves the rows as they were; when the call
    is not healthy that list is empty, as for an empty store. *)
Theorem list_route_always_answers_200 :
  forall (e : Env) (skip limit : option Z) (f : File),
    exists books,
      Main.response (Main.GET_books e skip limit f)
        = Main.Reply 200 (Main.BooksJson books) /\
      Main.calls (Main.GET_books e skip limit f)
        = [Client.GetAllBooks (Main.query_default 0 skip)
                              (Main.query_default 0 limit)] /\
      Client.stored (Main.file (Main.GET_books e skip limit f))
        = Client.stored f /\
      (fault e <> NoFault -> books = []).
Proof.
  intros e skip limit f. unfold Main.GET_books, Main.get_books.
  rewrite get_all_books_eq. simpl. eexists.
  split; [reflexivity|]. split; [reflexivity|].
  split; [apply connection_keeps_rows|].
  intros He. destruct (healthy e) eqn:E; [|reflexivity].
  apply healthy_true in E. contradiction.
Qed.

Lemma list_route_always_answers_200_witness :
  Main.response (Main.GET_books Sample.failing (Some 0) (Some 2)
                                Sample.five_books)
    = Main.Reply 200 (Main.BooksJson []).
Proof.
  destruct (list_route_always_answers_200 Sample.failing (Some 0) (Some 2)
              Sample.five_books) as (books & Hresp & _ & _ & Hempty).
  rewrite Hresp, Hempty; [reflexivity|discriminate].
Defined.

(** ** Pages, bootstrap, histories *)

(** X12.  Pages fit together: for a healthy call with [skip >= 0] and
    [limit >= 0] (all within 64 bits), the page [(skip, limit)] followed by
    everything from [skip + limit] on is everything from [skip] on; no row
    is lost or repeated between one page and the next. *)
Theorem pages_concatenate :
  forall (e : Env) (skip limit : Z) (f : File),
    fault e = NoFault ->
    0 <= skip -> 0 <= limit ->
    fits_int64 skip = true -> fits_int64 limit = true ->
    fits_int64 (skip + limit) = true ->
    snd (Database.get_all_books e skip limit f)
      ++ snd (Database.get_all_books e (skip + limit) (-1) f)
    = snd (Database.get_all_books e skip (-1) f).
Proof.
  intros e skip limit f He Hs Hl Hfs Hfl Hfsl.
  apply healthy_true in He.
  rewrite !get_all_books_eq. simpl. rewrite He, Hfs, Hfl, Hfsl. simpl.
  rewrite limit_offset_positive by exact Hl.
  rewrite !limit_offset_negative by lia.
  rewrite Z2Nat.inj_add by assumption.
  rewrite Nat.add_comm, <- skipn_skipn.
  apply firstn_skipn.
Qed.

Lemma pages_concatenate_witness :
  snd (Database.get_all_books Sample.fine 1 2 Sample.five_books)
    ++ snd (Database.get_all_books Sample.fine (1 + 2) (-1) Sample.five_books)
  = snd (Database.get_all_books Sample.fine 1 (-1) Sample.five_books).
Proof.
  apply (pages_concatenate Sample.fine 1 2 Sample.five_books);
    solve [reflexivity | lia].
Defined.

(** X13.  A missing file behaves as an empty table: every storage call that
    is healthy returns, and leaves behind, on a missing file exactly what it
    does on a file with an empty table.  Under a connection fault the file
    stays missing. *)
Theorem missing_file_is_an_empty_table :
  forall (e : Env) (c : Client.Call),
    (fault e = NoFault ->
     Client.perform e c Absent = Client.perform e c (Books empty_table)) /\
    (fault e = ConnectFault -> fst (Client.perform e c Absent) = Absent).
Proof.
  intros e c. split; intros He.
  - destruct c; simpl;
      unfold Database.get_all_books, Database.get_book_by_id,
        Database.create_book, Database.update_book, Database.delete_book;
      rewrite connection_bootstrap, connection_on_table, He; reflexivity.
  - destruct c; simpl;
      unfold Database.get_all_books, Database.get_book_by_id,
        Database.create_book, Database.update_book, Database.delete_book;
      rewrite connection_bootstrap, He; reflexivity.
Qed.

Lemma missing_file_is_an_empty_table_witness :
  Client.perform Sample.fine
    (Client.CreateBook (Some "A"%string) (Some "B"%string) None 100 None None
                       None) Absent
  = (Sample.one_book, Client.Created 1) /\
  fst (Client.perform Sample.unreachable (Client.GetAllBooks 0 (-1)) Absent)
  = Absent.
Proof.
  destruct (missing_file_is_an_empty_table Sample.fine
              (Client.CreateBook (Some "A"%string) (Some "B"%string) None 100
                                 None None None)) as [Hsame _].
  destruct (missing_file_is_an_empty_table Sample.unreachable
              (Client.GetAllBooks 0 (-1))) as [_ Hstay].
  split.
  - rewrite (Hsame eq_refl). reflexivity.
  - apply (Hstay eq_refl).
Defined.

Section Distinct.
Import Client.

Lemma ascending_ids_distinct (l : list Row.t) :
  ids_ascending l -> NoDup (map Row.id l).
Proof.
  unfold ids_ascending. induction 1 as [|x xs Hs IH Hall]; simpl;
    constructor; [|exact IH].
  intros Hin. apply in_map_iff in Hin. destruct Hin as (y & Hy & Hin).
  rewrite Forall_forall in Hall. specialize (Hall y Hin). lia.
Qed.

End Distinct.

(** X14.  The stored ids stay pairwise distinct: after any history of
    storage calls, healthy or failing, on a store the engine has written (a
    missing file included), the store is again well formed, no two stored
    rows share an id, and every stored id lies between 1 and the largest
    64-bit integer. *)
Theorem stored_ids_stay_distinct :
  forall (h : list (Env * Client.Call)) (f : File),
    Client.wf_file f ->
    Client.wf_file (fst (Client.run h f)) /\
    NoDup (map Row.id (Client.stored (fst (Client.run h f)))) /\
    Forall (fun r => 1 <= Row.id r <= INT64_MAX)
           (Client.stored (fst (Client.run h f))).
Proof.
  intros h f Hwf.
  destruct (run_keeps_counter h f Hwf) as (Hwf' & _).
  split; [exact Hwf'|]. split.
  - now apply ascending_ids_distinct, wf_file_ascending.
  - destruct (wf_file_ids _ Hwf') as [Hids Hseq].
    eapply Forall_impl; [|exact Hids]. simpl. intros; lia.
Qed.

Lemma stored_ids_stay_distinct_witness :
  map Row.id
    (Client.stored
       (fst (Client.run (Sample.first_day ++ Sample.second_day) Absent)))
    = [2; 3] /\
  NoDup (map Row.id
           (Client.stored
              (fst (Client.run (Sample.first_day ++ Sample.second_day)
                               Absent)))).
Proof.
  destruct (stored_ids_stay_distinct (Sample.first_day ++ Sample.second_day)
              Absent I) as (_ & Hnodup & _).
  split; [reflexivity | exact Hnodup].
Defined.

(** ** The routes that write *)

Section WritingRoutes.
Import Database Client.


(** [create_book] fails as soon as one of its conditions does. *)
Lemma create_book_fails (e : Env) (title author publisher : option string)
    (price : Z) (publish_date isbn cover_url : option string) (f : File) :
  title = None \/ author = None \/ fault e <> NoFault \/ f = NoTable \/
  fits_int64 price = false ->
  create_book e title author publisher price publish_date isbn cover_url f
  = (fst (get_db_connection e f), -1).
Proof.
  intros Hbad.
  destruct (create_book_cases e title author publisher price publish_date
              isbn cover_url f)
    as [H | (ti & au & Hti & Hau & He & Hf & Hp & _)]; [exact H|].
  exfalso. destruct Hbad as [H | [H | [H | [H | H]]]]; congruence.
Qed.


Lemma validate_positive_price (body : Models.Payload) (n : Z) :
  Models.p_price body = Some n -> 0 < n ->
  Models.model_validate body
  = Some (Models.mkBookCreate (Models.p_title body) (Models.p_author body)
            (Models.p_publisher body) n (Models.p_publish_date body)
            (Models.p_isbn body) (Models.p_cover_url body)).
Proof.
  intros Hp Hn. unfold Models.model_validate. rewrite Hp, Z.gtb_ltb.
  destruct (Z.ltb_spec 0 n); [reflexivity|lia].
Qed.

End WritingRoutes.



(** X16.  The route [POST /books] answers 400 "Create book failed. Check
    required fields." whenever the insert fails, although the body has
    passed validation: a body without title or without author, a call that
    is not healthy, a file without table, a price beyond 64 bits.  Nothing
    is stored, and the create is the only storage call. *)
Theorem post_route_answers_400_when_the_insert_fails :
  forall (e1 e2 : Env) (body : Models.Payload) (n : Z) (f : File),
    Models.p_price body = Some n -> 0 < n ->
    Models.p_title body = None \/ Models.p_author body = None \/
    fault e1 <> NoFault \/ f = NoTable \/ fits_int64 n = false ->
    Main.response (Main.POST_books e1 e2 body f)
      = Main.HTTPException 400 "Create book failed. Check required fields." /\
    Client.stored (Main.file (Main.POST_books e1 e2 body f))
      = Client.stored f /\
    Main.calls (Main.POST_books e1 e2 body f)
      = [Client.CreateBook (Models.p_title body) (Models.p_author body)
           (Models.p_publisher body) n (Models.p_publish_date body)
           (Models.p_isbn body) (Models.p_cover_url body)].
Proof.
  intros e1 e2 body n f Hp Hn Hbad.
  unfold Main.POST_books. rewrite (validate_positive_price body n Hp Hn).
  unfold Main.create_book. simpl.
  rewrite create_book_fails by exact Hbad. simpl.
  split; [reflexivity|]. split; [apply connection_keeps_rows|reflexivity].
Qed.

Lemma post_route_answers_400_when_the_insert_fails_witness :
  Main.response (Main.POST_books Sample.fine Sample.fine Sample.body_untitled
                                 Sample.five_books)
    = Main.HTTPException 400 "Create book failed. Check required fields." /\
  Main.file (Main.POST_books Sample.fine Sample.fine Sample.body_untitled
                             Sample.five_books) = Sample.five_books.
Proof.
  destruct (post_route_answers_400_when_the_insert_fails Sample.fine
              Sample.fine Sample.body_untitled 100 Sample.five_books
              eq_refl ltac:(lia) (or_introl eq_refl)) as (Hresp & _ & _).
  split; [exact Hresp | reflexivity].
Defined.





(** ** Sequences of requests *)

Section Requests.
Import Database Client.

Lemma validate_price_positive (body : Models.Payload) (book : Models.BookCreate) :
  Models.model_validate body = Some book -> 0 < Models.price book.
Proof.
  unfold Models.model_validate.
  destruct (Models.p_price body) as [n|]; [|discriminate].
  rewrite Z.gtb_ltb. destruct (Z.ltb_spec 0 n) as [Hn|Hn]; [|discriminate].
  intros Hv. inversion Hv. simpl. exact Hn.
Qed.

(** One storage call keeps the stored prices positive when the price it
    writes is. *)
Lemma perform_keeps_prices (e : Env) (c : Call) (f : File) :
  Observe.prices_positive f -> Observe.writes_positive_price c ->
  Observe.prices_positive (fst (perform e c f)).
Proof.
  unfold Observe.prices_positive. intros Hf Hc.
  destruct (connection_keeps_rows e f) as [Hrows _].
  destruct c as [skip limit | book_id
                | title author publisher price publish_date isbn cover_url
                | book_id title author publisher price publish_date isbn
                  cover_url
                | book_id]; simpl in *.
  - rewrite get_all_books_eq. simpl. now rewrite Hrows.
  - rewrite get_book_by_id_eq. simpl. now rewrite Hrows.
  - destruct (create_book_cases e title author publisher price publish_date
                isbn cover_url f)
      as [-> | (ti & au & -> & -> & He & Hnt & Hp & Hmax)].
    + simpl. now rewrite Hrows.
    + rewrite (create_book_ok e ti au publisher price publish_date isbn
                 cover_url f He Hnt Hp Hmax). simpl.
      rewrite btree_insert_last.
      * apply Forall_app. split; [exact Hf|]. now repeat constructor.
      * simpl. eapply Forall_impl; [|apply max_rowid_bounds].
        simpl. intros; lia.
  - destruct (update_book_cases e book_id title author publisher price
                publish_date isbn cover_url f)
      as [-> | (ti & au & _ & _ & _ & _ & _ & _ & ->)]; simpl.
    + now rewrite Hrows.
    + apply Forall_map. eapply Forall_impl; [|exact Hf].
      simpl. intros r Hr. now destruct (has_id book_id r).
  - destruct (delete_book_cases e book_id f) as [-> | (_ & _ & _ & ->)]; simpl.
    + now rewrite Hrows.
    + apply Forall_forall. intros r Hr. apply filter_In in Hr.
      rewrite Forall_forall in Hf. now apply Hf.
Qed.

(** The file a request leaves is the file its storage calls leave, and the
    prices these calls write are positive. *)
Lemma serve_by_storage_calls (e1 e2 : Env) (q : Server.Request) (f : File) :
  exists h : list (Env * Call),
    Main.file (Server.serve e1 e2 q f) = fst (run h f) /\
    Forall (fun ec => Observe.writes_positive_price (snd ec)) h.
Proof.
  destruct q as [skip limit | book_id | body | book_id body | book_id]; simpl.
  - exists [(e1, GetAllBooks (Main.query_default 0 skip)
                             (Main.query_default 0 limit))].
    unfold Main.GET_books, Main.get_books. simpl.
    destruct (get_all_books e1 _ _ f) as [f1 books]. simpl.
    split; [reflexivity|]. now repeat constructor.
  - exists [(e1, GetBookById book_id)].
    unfold Main.get_book. simpl.
    destruct (get_book_by_id e1 book_id f) as [f1 [b|]]; simpl;
      (split; [reflexivity|now repeat constructor]).
  - unfold Main.POST_books.
    destruct (Models.model_validate body) as [book|] eqn:Hv.
    + pose proof (validate_price_positive body book Hv) as Hpos.
      unfold Main.create_book.
      destruct (create_book e1 (Models.title book) (Models.author book)
                  (Models.publisher book) (Models.price book)
                  (Models.publish_date book) (Models.isbn book)
                  (Models.cover_url book) f) as [f1 new_id] eqn:Hc.
      destruct (new_id =? -1).
      * exists [(e1, CreateBook (Models.title book) (Models.author book)
                       (Models.publisher book) (Models.price book)
                       (Models.publish_date book) (Models.isbn book)
                       (Models.cover_url book))].
        simpl. rewrite Hc. simpl.
        split; [reflexivity|]. now repeat constructor.
      * destruct (get_book_by_id e2 new_id f1) as [f2 new_book] eqn:Hg.
        exists [(e1, CreateBook (Models.title book) (Models.author book)
                       (Models.publisher book) (Models.price book)
                       (Models.publish_date book) (Models.isbn book)
                       (Models.cover_url book));
                (e2, GetBookById new_id)].
        simpl. rewrite Hc, Hg. simpl.
        split; [reflexivity|]. now repeat constructor.
    + exists []. simpl. split; [reflexivity|constructor].
  - unfold Main.PUT_books.
    destruct (Models.model_validate body) as [book|] eqn:Hv.
    + pose proof (validate_price_positive body book Hv) as Hpos.
      unfold Main.update_book.
      destruct (update_book e1 book_id (Models.title book)
                  (Models.author book) (Models.publisher book)
                  (Models.price book) (Models.publish_date book)
                  (Models.isbn book) (Models.cover_url book) f)
        as [f1 success] eqn:Hu.
      destruct success; simpl negb; cbv iota.
      * destruct (get_book_by_id e2 book_id f1) as [f2 updated] eqn:Hg.
        exists [(e1, UpdateBook book_id (Models.title book)
                       (Models.author book) (Models.publisher book)
                       (Models.price book) (Models.publish_date book)
                       (Models.isbn book) (Models.cover_url book));
                (e2, GetBookById book_id)].
        simpl. rewrite Hu, Hg. simpl.
        split; [reflexivity|]. now repeat constructor.
      * exists [(e1, UpdateBook book_id (Models.title book)
                       (Models.author book) (Models.publisher book)
                       (Models.price book) (Models.publish_date book)
                       (Models.isbn book) (Models.cover_url book))].
        simpl. rewrite Hu. simpl.
        split; [reflexivity|]. now repeat constructor.
    + exists []. simpl. split; [reflexivity|constructor].
  - exists [(e1, DeleteBook book_id)].
    unfold Main.delete_book. simpl.
    destruct (delete_book e1 book_id f) as [f1 [|]]; simpl;
      (split; [reflexivity|now repeat constructor]).
Qed.

Lemma run_keeps_prices (h : list (Env * Call)) :
  forall f,
    Forall (fun ec => Observe.writes_positive_price (snd ec)) h ->
    Observe.prices_positive f ->
    Observe.prices_positive (fst (run h f)).
Proof.
  induction h as [|[e c] h IH]; intros f Hh Hf; simpl; [exact Hf|].
  inversion Hh as [|? ? Hc Hrest]; subst. simpl in Hc.
  pose proof (perform_keeps_prices e c f Hf Hc) as Hf1.
  destruct (perform e c f) as [f1 a]. simpl in Hf1.
  specialize (IH f1 Hrest Hf1).
  destruct (run h f1) as [f2 answers]. exact IH.
Qed.

Lemma run_keeps_wf (h : list (Env * Call)) (f : File) :
  wf_file f -> wf_file (fst (run h f)).
Proof.
  intros Hwf. now destruct (run_keeps_counter h f Hwf).
Qed.

End Requests.

(** X20.  Requests keep the store sound.  After any sequence of requests to
    the five routes, with any bodies and parameters and in any environments,
    a store the engine has written (a missing file included) whose prices
    are positive is again such a store: ids ascending and distinct, and
    every stored price greater than 0, as the validation of [POST] and
    [PUT] bodies lets no other price through. *)
Theorem requests_keep_prices_positive :
  forall (h : list (Env * Env * Server.Request)) (f : File),
    Client.wf_file f -> Observe.prices_positive f ->
    Client.wf_file (fst (Server.serve_all h f)) /\
    Observe.prices_positive (fst (Server.serve_all h f)) /\
    NoDup (map Row.id (Client.stored (fst (Server.serve_all h f)))).
Proof.
  induction h as [|[[e1 e2] q] h IH]; intros f Hwf Hpos; simpl.
  - split; [exact Hwf|]. split; [exact Hpos|].
    now apply ascending_ids_distinct, wf_file_ascending.
  - destruct (serve_by_storage_calls e1 e2 q f) as (calls & Hfile & Hcalls).
    assert (Client.wf_file (Main.file (Server.serve e1 e2 q f))) as Hwf1
      by (rewrite Hfile; now apply run_keeps_wf).
    assert (Observe.prices_positive (Main.file (Server.serve e1 e2 q f)))
      as Hpos1 by (rewrite Hfile; now apply run_keeps_prices).
    specialize (IH _ Hwf1 Hpos1).
    destruct (Server.serve_all h (Main.file (Server.serve e1 e2 q f)))
      as [f2 responses].
    exact IH.
Qed.

Lemma requests_keep_prices_positive_witness :
  map Row.price
    (Client.stored (fst (Server.serve_all Sample.busy_day Absent))) = [5] /\
  Observe.prices_positive (fst (Server.serve_all Sample.busy_day Absent)) /\
  Client.wf_file (fst (Server.serve_all Sample.busy_day Absent)).
Proof.
  destruct (requests_keep_prices_positive Sample.busy_day Absent I
              (Forall_nil _)) as (Hwf & Hpos & _).
  split; [reflexivity|]. split; [exact Hpos | exact Hwf].
Defined.


